(** * pdfwala: a shallow embedding of [src/index.js] and of the earlier
      one-method version of the same class.

    The library is a facade over [pdf-parse], [pdf-lib] and Node's [fs] and
    [path] modules.  Those collaborators are kept abstract: a [Host] record
    supplies their answers, and every call that reaches the outside world is
    recorded in a trace of [Event]s.  The JavaScript of the facade itself
    (validation, try/catch re-wrapping, line splitting, filtering, the page
    loop) is transcribed method by method. *)

From Stdlib Require Import String Ascii List ZArith QArith_base Bool Lia.
Import ListNotations.
Close Scope Q_scope.
Local Open Scope string_scope.
Local Open Scope list_scope.

(** ** Numbers

    A JavaScript number as the page loop meets it: NaN, the two infinities,
    or a finite value.  Finite values are taken as rationals; the loop only
    compares them and asks whether they are integers, and both are exact on
    doubles. *)
Inductive JsNumber : Type :=
| NaN
| Infinity
| NegInfinity
| Finite (q : Q).

(** The number with the integer value [z]. *)
Definition integer (z : Z) : JsNumber := Finite (inject_Z z).

Definition integers (zs : list Z) : list JsNumber := map integer zs.

(** A template literal with one substitution, [`before${value}after`]: the
    text of [value] in it is the engine's rendering of the number. *)
Inductive Template : Type :=
| Interpolated (before : string) (value : JsNumber) (after : string).

(** ** ECMAScript built-ins used by the source

    A JavaScript string is a sequence of code units; here the code units are
    the 256 values of [ascii], read as U+0000..U+00FF. *)
Module JS.

(** The separator of ['\n']. *)
Definition LF : ascii := "010"%char.

(** [s.split(sep)] for a one-unit separator.  The result is never empty:
    [''.split('\n')] is [['']]. *)
Fixpoint split (sep : ascii) (s : string) : list string :=
  match s with
  | EmptyString => [EmptyString]
  | String c rest =>
      if Ascii.eqb c sep then EmptyString :: split sep rest
      else match split sep rest with
           | [] => [String c EmptyString]
           | line :: lines => String c line :: lines
           end
  end.

(** [lines.join(sep)]. *)
Definition join (sep : string) (lines : list string) : string :=
  String.concat sep lines.

(** [s.startsWith(t)]. *)
Fixpoint startsWith (s t : string) {struct t} : bool :=
  match t, s with
  | EmptyString, _ => true
  | String _ _, EmptyString => false
  | String b t', String a s' => Ascii.eqb a b && startsWith s' t'
  end.

(** [s.includes(t)]: [t] occurs in [s] at some position. *)
Fixpoint includes (s t : string) : bool :=
  startsWith s t ||
  match s with
  | EmptyString => false
  | String _ s' => includes s' t
  end.

(** Lower-casing of one code unit of the range U+0000..U+00FF: the letters
    A-Z and the capital letters U+00C0..U+00DE (U+00D7, the multiplication
    sign, apart) move up by 32; everything else is unchanged. *)
Definition lowerUnit (c : ascii) : ascii :=
  let n := N_of_ascii c in
  if ((65 <=? n) && (n <=? 90) ||
      (192 <=? n) && (n <=? 222) && negb (n =? 215))%N
  then ascii_of_N (n + 32) else c.

(** [s.toLowerCase()]. *)
Fixpoint toLowerCase (s : string) : string :=
  match s with
  | EmptyString => EmptyString
  | String c rest => String (lowerUnit c) (toLowerCase rest)
  end.

(** Truthiness of a string value: only [''] is falsy. *)
Definition truthy (s : string) : bool :=
  match s with EmptyString => false | String _ _ => true end.

(** [a < b] on numbers: false as soon as one side is NaN. *)
Definition lt (a b : JsNumber) : bool :=
  match a, b with
  | NaN, _ | _, NaN => false
  | Infinity, _ => false
  | _, NegInfinity => false
  | NegInfinity, _ => true
  | _, Infinity => true
  | Finite p, Finite q => negb (Qle_bool q p)
  end.

(** [a > b]. *)
Definition gt (a b : JsNumber) : bool := lt b a.

(** [a <= b]: false with a NaN, otherwise the opposite of [b < a]. *)
Definition le (a b : JsNumber) : bool :=
  match a, b with
  | NaN, _ | _, NaN => false
  | _, _ => negb (lt b a)
  end.

(** The integer a number is, when it is one. *)
Definition integerValue (n : JsNumber) : option Z :=
  match n with
  | Finite q =>
      if (Qnum q mod Zpos (Qden q) =? 0)%Z
      then Some (Qnum q / Zpos (Qden q))%Z
      else None
  | _ => None
  end.

End JS.

(** ** Errors

    What a [catch] clause can receive: an instance of the module's own
    [PDFKitError] class (lines 6-12), or any other thrown value, of which
    only [err.message] is ever read.  [PDFKitError] is not exported, so its
    instances are created by the methods below and by nothing else. *)
Inductive JsError : Type :=
| PDFKitError (message : string) (type : string)
| Error (message : string).

Definition message (err : JsError) : string :=
  match err with
  | PDFKitError m _ => m
  | Error m => m
  end.

(** What a collaborator answers: a value, or an exception with its message. *)
Inductive Result (A : Type) : Type :=
| Ok (a : A)
| Raise (message : string).
Arguments Ok {A} a.
Arguments Raise {A} message.

(** ** Data *)

Definition Buffer : Type := list Byte.byte.

(** What [pdf-parse] resolves to, as far as the source reads it. *)
Record PdfData : Type := { text : string; numpages : Z }.

(** The object literal of [getMetadata] (lines 147-152). *)
Record PdfMetadata : Type := {
  totalPages : Z;
  totalText : string;
  textLength : Z;
  filename : string
}.

(** The second argument of [fs.writeFileSync]: a string or a byte array. *)
Inductive FileData : Type :=
| TextData (s : string)
| BinaryData (b : Buffer).

(** The [options] argument of [searchText].  [undefined] takes the default
    [{}]; [null] does not.  The only property read is [caseSensitive], absent
    ([None]) or a boolean. *)
Inductive Options : Type :=
| OptionsUndefined
| OptionsNull
| OptionsObject (caseSensitive : option bool).

(** How a call ends: [return a], or [throw err]. *)
Inductive Completion (A : Type) : Type :=
| Return (a : A)
| Throw (err : JsError).
Arguments Return {A} a.
Arguments Throw {A} err.

Section Facade.

(** A page object of [pdf-lib]; a document is the list of its pages. *)
Context {Page : Type}.

(** The collaborators: Node's [fs] and [path], [pdf-parse], [pdf-lib]. *)
Record Host : Type := {
  existsSync : string -> bool;
  readFileSync : string -> Result Buffer;
  writeFileSync : string -> FileData -> Result unit;
  extname : string -> string;
  basename : string -> string;
  pdfparse : Buffer -> Result PdfData;
  load : Buffer -> Result (list Page);
  save : list Page -> Result Buffer
}.

(** Calls that leave the facade, in the order they are made. *)
Inductive Event : Type :=
| FsExistsSync (path : string)
| FsReadFileSync (path : string)
| FsWriteFileSync (path : string) (data : FileData)
| PdfParse (pdf : Buffer)
| PdfLibLoad (bytes : Buffer)
| PdfLibCreate
| PdfLibCopyPages (pageNum : JsNumber)
| PdfLibAddPage (page : Page)
| PdfLibSave (pages : list Page)
| ConsoleWarn (msg : Template).

(** A file read or a call into [pdf-parse] or [pdf-lib]. *)
Definition readsOrDelegates (ev : Event) : bool :=
  match ev with
  | FsReadFileSync _ | PdfParse _ | PdfLibLoad _ | PdfLibCreate
  | PdfLibCopyPages _ | PdfLibAddPage _ | PdfLibSave _ => true
  | FsExistsSync _ | FsWriteFileSync _ _ | ConsoleWarn _ => false
  end.

(** *** The effect monad: a trace of events and a completion *)

Definition Run (A : Type) : Type := (list Event * Completion A)%type.

Definition trace {A} (r : Run A) : list Event := fst r.
Definition completion {A} (r : Run A) : Completion A := snd r.

Definition ret {A} (a : A) : Run A := ([], Return a).
Definition throw {A} (err : JsError) : Run A := ([], Throw err).

Definition bind {A B} (m : Run A) (k : A -> Run B) : Run B :=
  match m with
  | (t, Throw err) => (t, Throw err)
  | (t, Return a) => let (t', c) := k a in (t ++ t', c)
  end.

(** [try { body } catch (err) { handler }]. *)
Definition tryCatch {A} (body : Run A) (handler : JsError -> Run A) : Run A :=
  match body with
  | (t, Throw err) => let (t', c) := handler err in (t ++ t', c)
  | (t, Return a) => (t, Return a)
  end.

(** One call to a collaborator: the event, then its answer. *)
Definition call {A} (ev : Event) (answer : Result A) : Run A :=
  ([ev], match answer with
         | Ok a => Return a
         | Raise m => Throw (Error m)
         end).

Notation "x <- m ;; k" := (bind m (fun x => k))
  (at level 61, m at next level, right associativity).
Notation "m ;;; k" := (bind m (fun _ => k))
  (at level 61, right associativity).

(** The body shared by all six [catch] clauses:
    [if (err instanceof PDFKitError) throw err;
     else throw new PDFKitError(`<prefix>${err.message}`, <tag>)]. *)
Definition rethrow {A} (prefix tag : string) (err : JsError) : Run A :=
  match err with
  | PDFKitError _ _ => throw err
  | Error _ => throw (PDFKitError (prefix ++ message err) tag)
  end.

Variable host : Host.

(** Lines 21-30. *)
Definition _validateFilePath (filePath : string) : Run unit :=
  found <- call (FsExistsSync filePath) (Ok (existsSync host filePath)) ;;
  if negb found
  then throw (PDFKitError ("File not found: " ++ filePath) "FileNotFound")
  else
    let ext := JS.toLowerCase (extname host filePath) in
    if negb (String.eqb ext ".pdf")
    then throw (PDFKitError ("Invalid file type. Expected .pdf, got " ++ ext)
                            "InvalidFileType")
    else ret tt.

(** Lines 37-48. *)
Definition intoarray (filePath : string) : Run (list string) :=
  tryCatch
    (_validateFilePath filePath ;;;
     pdf <- call (FsReadFileSync filePath) (readFileSync host filePath) ;;
     data <- call (PdfParse pdf) (pdfparse host pdf) ;;
     ret (JS.split JS.LF (text data)))
    (rethrow "Failed to parse PDF: " "ParseError").

(** Lines 55-66. *)
Definition getPageCount (filePath : string) : Run Z :=
  tryCatch
    (_validateFilePath filePath ;;;
     pdf <- call (FsReadFileSync filePath) (readFileSync host filePath) ;;
     data <- call (PdfParse pdf) (pdfparse host pdf) ;;
     ret (numpages data))
    (rethrow "Failed to get page count: " "PageCountError").

(** [const { caseSensitive = false } = options], with the parameter default
    [options = {}] (lines 76 and 79). *)
Definition destructureOptions (options : Options) : Run bool :=
  match options with
  | OptionsUndefined => ret false
  | OptionsObject None => ret false
  | OptionsObject (Some b) => ret b
  | OptionsNull =>
      throw (Error
        "Cannot destructure property 'caseSensitive' of 'options' as it is null.")
  end.

(** Lines 84-86. *)
Definition searchFunc (caseSensitive : bool) (searchTerm line : string) : bool :=
  if caseSensitive
  then JS.includes line searchTerm
  else JS.includes (JS.toLowerCase line) (JS.toLowerCase searchTerm).

(** Lines 76-93. *)
Definition searchText (filePath searchTerm : string) (options : Options)
  : Run (list string) :=
  tryCatch
    (_validateFilePath filePath ;;;
     caseSensitive <- destructureOptions options ;;
     (if negb (JS.truthy searchTerm)
      then throw (PDFKitError "Invalid search terms provided" "InvalidSearchTerm")
      else ret tt) ;;;
     lines <- intoarray filePath ;;
     ret (filter (searchFunc caseSensitive searchTerm) lines))
    (rethrow "Failed to search PDF: " "SearchError").

(** [pdfDoc.getPageCount()]. *)
Definition pageCount (pdfDoc : list Page) : Z := Z.of_nat (length pdfDoc).

(** [newPdfDoc.copyPages(pdfDoc, [pageNum - 1])] with the destructuring
    [[copiedPage] = ...], recorded by its [pageNum].  [pdf-lib] takes
    [pdfDoc.getPages()[pageNum - 1]]: for an integer [pageNum] that is the
    page at that index, if there is one.  For any other number the
    difference is no index of the array (it is fractional or negative, also
    after rounding), the element is [undefined], and reading its [node]
    throws. *)
Definition copyPages (pdfDoc : list Page) (pageNum : JsNumber) : Run Page :=
  call (PdfLibCopyPages pageNum)
    (match JS.integerValue pageNum with
     | Some n =>
         if (n <? 1)%Z
         then Raise "Cannot read properties of undefined (reading 'node')"
         else match nth_error pdfDoc (Z.to_nat (n - 1)) with
              | Some page => Ok page
              | None => Raise "Cannot read properties of undefined (reading 'node')"
              end
     | None => Raise "Cannot read properties of undefined (reading 'node')"
     end).

(** [newPdfDoc.addPage(copiedPage)]: the page goes to the end. *)
Definition addPage (newPdfDoc : list Page) (page : Page) : Run (list Page) :=
  call (PdfLibAddPage page) (Ok (newPdfDoc ++ [page])).

(** The loop of lines 119-126, threading the destination document. *)
Fixpoint copyLoop (pdfDoc : list Page) (pageNumbers : list JsNumber)
                  (newPdfDoc : list Page) : Run (list Page) :=
  match pageNumbers with
  | [] => ret newPdfDoc
  | pageNum :: rest =>
      if JS.gt pageNum (integer 0)
         && JS.le pageNum (integer (pageCount pdfDoc))
      then
        copiedPage <- copyPages pdfDoc pageNum ;;
        newPdfDoc' <- addPage newPdfDoc copiedPage ;;
        copyLoop pdfDoc rest newPdfDoc'
      else
        call (ConsoleWarn (Interpolated "Page number " pageNum
                             " is out of range and will be skipped."))
             (Ok tt) ;;;
        copyLoop pdfDoc rest newPdfDoc
  end.

(** [!pageNumbers || !Array.isArray(pageNumbers) || pageNumbers.length === 0];
    [None] stands for a value that is not an array. *)
Definition invalidPageNumbers (pageNumbers : option (list JsNumber)) : bool :=
  match pageNumbers with
  | None => true
  | Some [] => true
  | Some (_ :: _) => false
  end.

(** Truthiness of an optional string argument ([None] is [undefined]). *)
Definition given (outputPath : option string) : bool :=
  match outputPath with
  | None => false
  | Some p => JS.truthy p
  end.

(** Lines 101-134.  [require('pdf-lib')] (line 113) is taken to succeed. *)
Definition extractPages (inputPath : string) (outputPath : option string)
                        (pageNumbers : option (list JsNumber)) : Run unit :=
  tryCatch
    (_validateFilePath inputPath ;;;
     (if negb (given outputPath)
      then throw (PDFKitError "Invalid path provided" "InvalidOutputPath")
      else ret tt) ;;;
     (if invalidPageNumbers pageNumbers
      then throw (PDFKitError "Invalid page numbers provided" "InvalidPageNumbers")
      else ret tt) ;;;
     sourcePdfBytes <- call (FsReadFileSync inputPath) (readFileSync host inputPath) ;;
     pdfDoc <- call (PdfLibLoad sourcePdfBytes) (load host sourcePdfBytes) ;;
     newPdfDoc <- call PdfLibCreate (Ok []) ;;
     newPdfDoc' <- copyLoop pdfDoc (match pageNumbers with
                                    | Some l => l
                                    | None => []
                                    end) newPdfDoc ;;
     pdfBytes <- call (PdfLibSave newPdfDoc') (save host newPdfDoc') ;;
     let out := match outputPath with Some p => p | None => "" end in
     call (FsWriteFileSync out (BinaryData pdfBytes))
          (writeFileSync host out (BinaryData pdfBytes)))
    (rethrow "Failed to extract pages: " "ExtractPagesError").

(** Lines 141-157. *)
Definition getMetadata (filePath : string) : Run PdfMetadata :=
  tryCatch
    (_validateFilePath filePath ;;;
     pdf <- call (FsReadFileSync filePath) (readFileSync host filePath) ;;
     data <- call (PdfParse pdf) (pdfparse host pdf) ;;
     ret {| totalPages := numpages data;
            totalText := text data;
            textLength := Z.of_nat (String.length (text data));
            filename := basename host filePath |})
    (rethrow "Failed to get metadata: " "MetadataError").

(** Lines 165-178. *)
Definition convertToText (inputPath : string) (outputPath : option string)
  : Run string :=
  tryCatch
    (_validateFilePath inputPath ;;;
     lines <- intoarray inputPath ;;
     if given outputPath
     then
       let out := match outputPath with Some p => p | None => "" end in
       call (FsWriteFileSync out (TextData (JS.join (String JS.LF "") lines)))
            (writeFileSync host out (TextData (JS.join (String JS.LF "") lines))) ;;;
       ret ""
     else ret (JS.join (String JS.LF "") lines))
    (rethrow "Failed to convert PDF to text: " "ConvertToTextError").

(** *** The earlier version of the class: one method, no validation and no
    re-wrapping.  An exception of [fs.readFileSync] inside the promise
    executor rejects the promise, like a rejection of [pdfparse]. *)
Definition intoarray_v0 (path : string) : Run (list string) :=
  pdf <- call (FsReadFileSync path) (readFileSync host path) ;;
  data <- call (PdfParse pdf) (pdfparse host pdf) ;;
  ret (JS.split JS.LF (text data)).

End Facade.

Arguments Host Page : clear implicits.
Arguments Event Page : clear implicits.
Arguments Run Page A : clear implicits.

(** ** A concrete host

    POSIX [path.extname] and [path.basename], and a small file system in
    which every byte of a file is one page.  Like [pdf-lib], its [save] puts
    a blank page (the byte 0) into a document that has none. *)
Module Posix.

Definition slash : ascii := "/"%char.
Definition dot : ascii := "."%char.

Fixpoint dropWhile (f : ascii -> bool) (l : list ascii) : list ascii :=
  match l with
  | [] => []
  | c :: r => if f c then dropWhile f r else l
  end.

Fixpoint takeWhile (f : ascii -> bool) (l : list ascii) : list ascii :=
  match l with
  | [] => []
  | c :: r => if f c then c :: takeWhile f r else []
  end.

(** The last portion of the path, reversed, trailing separators ignored. *)
Definition lastPortionRev (p : string) : list ascii :=
  takeWhile (fun c => negb (Ascii.eqb c slash))
    (dropWhile (fun c => Ascii.eqb c slash) (rev (list_ascii_of_string p))).

Definition basename (p : string) : string :=
  string_of_list_ascii (rev (lastPortionRev p)).

(** From the last dot of the last portion to its end; [''] when there is
    no dot, when the only dot is the first character, and for ['..']. *)
Definition extname (p : string) : string :=
  let portion := lastPortionRev p in
  let after := takeWhile (fun c => negb (Ascii.eqb c dot)) portion in
  if (length after =? length portion)%nat then ""
  else if (S (length after) =? length portion)%nat then ""
  else if String.eqb (basename p) ".." then ""
  else string_of_list_ascii (dot :: rev after).

End Posix.

Module Sample.

Import Byte.

Definition reportBytes : Buffer := [x01; x02; x03; x04; x05].

Definition files : list (string * Buffer) :=
  [ ("/docs/report.pdf", reportBytes);
    ("/docs/REPORT.PDF", reportBytes);
    ("/docs/abc.pdf", [x61]);
    ("/docs/empty.pdf", []);
    ("/docs/broken.pdf", [xff]);
    ("/docs/notes.txt", [x0a]) ].

Fixpoint lookup (p : string) (l : list (string * Buffer)) : option Buffer :=
  match l with
  | [] => None
  | (q, b) :: r => if String.eqb p q then Some b else lookup p r
  end.

Definition reportText : string :=
  "Foo one" ++ String JS.LF ("foo two" ++ String JS.LF ("bar" ++
  String JS.LF ("FOO three" ++ String JS.LF "a fOo"))).

Definition host : Host byte := {|
  existsSync p := match lookup p files with Some _ => true | None => false end;
  readFileSync p :=
    match lookup p files with
    | Some b => Ok b
    | None => Raise ("ENOENT: no such file or directory, open '" ++ p ++ "'")
    end;
  writeFileSync p _ :=
    if JS.startsWith p "/readonly/"
    then Raise ("EACCES: permission denied, open '" ++ p ++ "'")
    else Ok tt;
  extname := Posix.extname;
  basename := Posix.basename;
  pdfparse b :=
    match b with
    | [xff] => Raise "Invalid PDF structure"
    | [x61] => Ok {| text := String "a" (String JS.LF (String "b" (String JS.LF "c")));
                     numpages := 1 |}
    | [] => Ok {| text := ""; numpages := 0 |}
    | _ => Ok {| text := reportText; numpages := Z.of_nat (length b) |}
    end;
  load b :=
    match b with
    | [xff] => Raise "No PDF header found"
    | _ => Ok b
    end;
  save pages :=
    match pages with
    | [] => Ok [x00]
    | _ => Ok pages
    end
|}.

End Sample.

(** ** Reading a run *)

(** The [type] tag of the [PDFKitError] a run ends with, if it ends so. *)
Definition thrownType {Page A} (r : Run Page A) : option string :=
  match completion r with
  | Throw (PDFKitError _ tag) => Some tag
  | _ => None
  end.

(** The run made no file read and no call into [pdf-parse] or [pdf-lib]. *)
Definition untouched {Page A} (r : Run Page A) : bool :=
  negb (existsb readsOrDelegates (trace r)).

(** [filePath] passes [_validateFilePath]. *)
Definition validPath {Page} (host : Host Page) (filePath : string) : bool :=
  existsSync host filePath
  && String.eqb (JS.toLowerCase (extname host filePath)) ".pdf".

Definition OptionsNull_dec (options : Options) :
  {options = OptionsNull} + {options <> OptionsNull}.
Proof. destruct options; [right | left | right]; congruence. Defined.

(** The flag read from [options] when destructuring succeeds. *)
Definition caseSensitiveOf (options : Options) : bool :=
  match options with
  | OptionsObject (Some b) => b
  | _ => false
  end.

(** The run ends with a [PDFKitError] tagged [tag], having done nothing but
    the existence check of [p]. *)
Definition failsBeforeWork {Page A} (p tag : string) (r : Run Page A) : Prop :=
  thrownType r = Some tag /\ trace r = [FsExistsSync p] /\ untouched r = true.

(** The tags the interface table lists for [searchText]. *)
Definition listedSearchTags : list string :=
  ["FileNotFound"; "InvalidFileType"; "InvalidSearchTerm"; "SearchError"].

(** The tags [searchText] can end with. *)
Definition observedSearchTags : list string :=
  ["FileNotFound"; "InvalidFileType"; "InvalidSearchTerm"; "ParseError"; "SearchError"].

(** ['\n'] as a string, and the two texts of the examples. *)
Definition newline : string := String JS.LF "".
Definition text_a_b_c : string :=
  String "a" (String JS.LF (String "b" (String JS.LF "c"))).

(** The comparison of the specification: [term] occurs in [line], both
    lower-cased first unless the search is case sensitive. *)
Definition fold (caseSensitive : bool) (s : string) : string :=
  if caseSensitive then s else JS.toLowerCase s.

Definition contains (caseSensitive : bool) (line term : string) : Prop :=
  exists pre post,
    fold caseSensitive line = (pre ++ fold caseSensitive term ++ post)%string.

(** [l1] is [l2] with some elements left out, the order kept. *)
Inductive Subsequence {A : Type} : list A -> list A -> Prop :=
| SubNil : Subsequence [] []
| SubKeep x l1 l2 : Subsequence l1 l2 -> Subsequence (x :: l1) (x :: l2)
| SubSkip x l1 l2 : Subsequence l1 l2 -> Subsequence l1 (x :: l2).

(** The selection [extractPages] is to make. *)
Section Selection.

Context {Page : Type}.

(** The guard of line 120. *)
Definition passesGuard (src : list Page) (n : JsNumber) : bool :=
  JS.gt n (integer 0) && JS.le n (integer (pageCount src)).

(** A number that passes the guard without being an integer. *)
Definition strays (src : list Page) (n : JsNumber) : bool :=
  passesGuard src n
  && match JS.integerValue n with Some _ => false | None => true end.

(** The selection the specification describes: page [n], counted from 1,
    is taken when [n] is an integer with [1 <= n <= pageCount src] and left
    out otherwise. *)
Definition inRange (src : list Page) (n : JsNumber) : bool :=
  match JS.integerValue n with
  | Some z => ((1 <=? z) && (z <=? pageCount src))%Z
  | None => false
  end.

Definition pageNumbered (src : list Page) (n : JsNumber) : option Page :=
  match JS.integerValue n with
  | Some z =>
      if ((1 <=? z) && (z <=? pageCount src))%Z
      then nth_error src (Z.to_nat (z - 1))
      else None
  | None => None
  end.

Definition requestedPages (src : list Page) (pageNumbers : list JsNumber)
  : list Page :=
  flat_map (fun n => match pageNumbered src n with
                     | Some page => [page]
                     | None => []
                     end) pageNumbers.

(** What the loop does outside, number by number, as long as no number
    strays. *)
Definition loopEvents (src : list Page) (pageNumbers : list JsNumber)
  : list (Event Page) :=
  flat_map (fun n => match pageNumbered src n with
                     | Some page => [PdfLibCopyPages n; PdfLibAddPage page]
                     | None => [ConsoleWarn
                                  (Interpolated "Page number " n
                                     " is out of range and will be skipped.")]
                     end) pageNumbers.

End Selection.

(** ** Observations on traces, texts and completions *)

Section Observations.

Context {Page : Type}.

Definition isExistsCheck (ev : Event Page) : bool :=
  match ev with FsExistsSync _ => true | _ => false end.

Definition isRead (ev : Event Page) : bool :=
  match ev with FsReadFileSync _ => true | _ => false end.

Definition isParse (ev : Event Page) : bool :=
  match ev with PdfParse _ => true | _ => false end.

Definition isWrite (ev : Event Page) : bool :=
  match ev with FsWriteFileSync _ _ => true | _ => false end.

Definition isWarn (ev : Event Page) : bool :=
  match ev with ConsoleWarn _ => true | _ => false end.

Definition isPdfLib (ev : Event Page) : bool :=
  match ev with
  | PdfLibLoad _ | PdfLibCreate | PdfLibCopyPages _ | PdfLibAddPage _
  | PdfLibSave _ => true
  | _ => false
  end.

(** How many events of a kind a trace holds. *)
Definition occurrences (kind : Event Page -> bool) (t : list (Event Page)) : nat :=
  length (filter kind t).

(** The documents handed to [save], in order. *)
Definition savedDocuments (t : list (Event Page)) : list (list Page) :=
  flat_map (fun ev => match ev with PdfLibSave pages => [pages] | _ => [] end) t.

End Observations.

(** A run that reads at most one file, decodes at most once, writes at most
    once and checks existence at most twice. *)
Definition frugal {Page A} (r : Run Page A) : Prop :=
  occurrences isRead (trace r) <= 1
  /\ occurrences isParse (trace r) <= 1
  /\ occurrences isWrite (trace r) <= 1
  /\ occurrences isExistsCheck (trace r) <= 2.

(** The number of newline code units of a text. *)
Fixpoint newlineCount (s : string) : nat :=
  match s with
  | EmptyString => 0
  | String c rest => (if Ascii.eqb c JS.LF then 1 else 0) + newlineCount rest
  end.

(** A [catch] clause of the source applied to a completion: a raw error is
    wrapped under [tag] with its message after [prefix], anything else is
    left as it is. *)
Definition wrapped {A} (prefix tag : string) (c : Completion A) : Completion A :=
  match c with
  | Throw (Error m) => Throw (PDFKitError (prefix ++ m) tag)
  | _ => c
  end.

(** The page numbers [1, 2, ..., n]. *)
Definition allPageNumbers (n : nat) : list JsNumber :=
  map (fun k => integer (Z.of_nat k)) (seq 1 n).

Ltac unfold_run :=
  unfold tryCatch, bind, call, ret, throw, rethrow, completion, trace in *.

(** Counting in a trace that is written out. *)
Ltac count_events :=
  unfold occurrences; simpl; first [reflexivity | lia].

(** * Properties *)

(** ** The built-ins and the concrete host at work *)

Example split_abc :
  JS.split JS.LF (String "a" (String JS.LF (String "b" (String JS.LF "c"))))
  = ["a"; "b"; "c"].
Proof. reflexivity. Qed.

Example split_trailing :
  JS.split JS.LF (String "a" (String JS.LF "")) = ["a"; ""].
Proof. reflexivity. Qed.

Example includes_mid : JS.includes "say Foo twice" "Foo" = true.
Proof. reflexivity. Qed.

Example includes_case : JS.includes "say foo twice" "Foo" = false.
Proof. reflexivity. Qed.

Example lower_FOO : JS.toLowerCase "fOo BAR 1!" = "foo bar 1!".
Proof. reflexivity. Qed.

Example posix_names :
  (Posix.basename "/docs/report.pdf", Posix.extname "/docs/report.pdf",
   Posix.extname "/docs/REPORT.PDF", Posix.extname "/docs/notes.txt",
   Posix.extname "/docs/.bashrc", Posix.extname "archive.tar.gz",
   Posix.basename "/docs/dir/", Posix.extname "..")
  = ("report.pdf", ".pdf", ".PDF", ".txt", "", ".gz", "dir", "").
Proof. reflexivity. Qed.

Example sample_intoarray :
  intoarray Sample.host "/docs/report.pdf"
  = ([FsExistsSync "/docs/report.pdf"; FsReadFileSync "/docs/report.pdf";
      PdfParse Sample.reportBytes],
     Return ["Foo one"; "foo two"; "bar"; "FOO three"; "a fOo"]).
Proof. reflexivity. Qed.

Example sample_intoarray_broken :
  completion (intoarray Sample.host "/docs/broken.pdf")
  = Throw (PDFKitError "Failed to parse PDF: Invalid PDF structure" "ParseError").
Proof. reflexivity. Qed.

Example sample_search_missing :
  searchText Sample.host "/docs/missing.pdf" "" OptionsUndefined
  = ([FsExistsSync "/docs/missing.pdf"],
     Throw (PDFKitError "File not found: /docs/missing.pdf" "FileNotFound")).
Proof. reflexivity. Qed.

Example sample_search_insensitive :
  completion (searchText Sample.host "/docs/report.pdf" "Foo" (OptionsObject (Some false)))
  = Return ["Foo one"; "foo two"; "FOO three"; "a fOo"].
Proof. reflexivity. Qed.

Example sample_search_sensitive :
  completion (searchText Sample.host "/docs/report.pdf" "Foo" (OptionsObject (Some true)))
  = Return ["Foo one"].
Proof. reflexivity. Qed.

Example sample_extract :
  extractPages Sample.host "/docs/report.pdf" (Some "/out/x.pdf")
    (Some (integers [2; 5; 2]%Z))
  = ([FsExistsSync "/docs/report.pdf"; FsReadFileSync "/docs/report.pdf";
      PdfLibLoad Sample.reportBytes; PdfLibCreate;
      PdfLibCopyPages (integer 2); PdfLibAddPage Byte.x02;
      PdfLibCopyPages (integer 5); PdfLibAddPage Byte.x05;
      PdfLibCopyPages (integer 2); PdfLibAddPage Byte.x02;
      PdfLibSave [Byte.x02; Byte.x05; Byte.x02];
      FsWriteFileSync "/out/x.pdf" (BinaryData [Byte.x02; Byte.x05; Byte.x02])],
     Return tt).
Proof. reflexivity. Qed.

(** Nothing is copied, and the file written holds the blank page of [save]. *)
Example sample_extract_out_of_range :
  extractPages Sample.host "/docs/report.pdf" (Some "/out/x.pdf")
    (Some (integers [0; 6]%Z))
  = ([FsExistsSync "/docs/report.pdf"; FsReadFileSync "/docs/report.pdf";
      PdfLibLoad Sample.reportBytes; PdfLibCreate;
      ConsoleWarn (Interpolated "Page number " (integer 0)
                     " is out of range and will be skipped.");
      ConsoleWarn (Interpolated "Page number " (integer 6)
                     " is out of range and will be skipped.");
      PdfLibSave []; FsWriteFileSync "/out/x.pdf" (BinaryData [Byte.x00])],
     Return tt).
Proof. reflexivity. Qed.

(** NaN, the infinities and a fraction beyond the last page are skipped; a
    fraction between 0 and the page count reaches [copyPages], which throws. *)
Example sample_extract_not_a_number :
  trace (extractPages Sample.host "/docs/report.pdf" (Some "/out/x.pdf")
           (Some [NaN; Infinity; NegInfinity; Finite (11 # 2)]))
  = [FsExistsSync "/docs/report.pdf"; FsReadFileSync "/docs/report.pdf";
     PdfLibLoad Sample.reportBytes; PdfLibCreate;
     ConsoleWarn (Interpolated "Page number " NaN
                    " is out of range and will be skipped.");
     ConsoleWarn (Interpolated "Page number " Infinity
                    " is out of range and will be skipped.");
     ConsoleWarn (Interpolated "Page number " NegInfinity
                    " is out of range and will be skipped.");
     ConsoleWarn (Interpolated "Page number " (Finite (11 # 2))
                    " is out of range and will be skipped.");
     PdfLibSave []; FsWriteFileSync "/out/x.pdf" (BinaryData [Byte.x00])].
Proof. reflexivity. Qed.

Example sample_extract_fraction :
  extractPages Sample.host "/docs/report.pdf" (Some "/out/x.pdf")
    (Some [integer 1; Finite (5 # 2); integer 3])
  = ([FsExistsSync "/docs/report.pdf"; FsReadFileSync "/docs/report.pdf";
      PdfLibLoad Sample.reportBytes; PdfLibCreate;
      PdfLibCopyPages (integer 1); PdfLibAddPage Byte.x01;
      PdfLibCopyPages (Finite (5 # 2))],
     Throw (PDFKitError
              "Failed to extract pages: Cannot read properties of undefined (reading 'node')"
              "ExtractPagesError")).
Proof. reflexivity. Qed.

Example sample_metadata :
  completion (getMetadata Sample.host "/docs/report.pdf")
  = Return {| totalPages := 5; totalText := Sample.reportText;
              textLength := 35; filename := "report.pdf" |}.
Proof. reflexivity. Qed.

(** ** Facts about the string built-ins *)

Section StringFacts.

Lemma split_not_nil (sep : ascii) (s : string) : JS.split sep s <> [].
Proof.
  destruct s as [|c rest]; simpl; [discriminate|].
  destruct (Ascii.eqb c sep); [discriminate|].
  destruct (JS.split sep rest); discriminate.
Qed.

Lemma split_length (sep : ascii) (s : string) : 1 <= length (JS.split sep s).
Proof.
  pose proof (split_not_nil sep s) as H.
  destruct (JS.split sep s); [congruence | simpl; lia].
Qed.

(** Joining what [split] produced gives the text back. *)
Lemma join_split (sep : ascii) (s : string) :
  JS.join (String sep "") (JS.split sep s) = s.
Proof.
  unfold JS.join.
  induction s as [|c rest IH]; simpl; [reflexivity|].
  destruct (Ascii.eqb_spec c sep) as [->|Hne].
  - pose proof (split_not_nil sep rest) as Hnil.
    simpl. destruct (JS.split sep rest) as [|l ls] eqn:E; [congruence|].
    simpl. now rewrite <- IH.
  - pose proof (split_not_nil sep rest) as Hnil.
    destruct (JS.split sep rest) as [|l ls] eqn:E; [congruence|].
    rewrite <- IH. simpl. destruct ls; reflexivity.
Qed.

(** No line produced by [split] contains the separator. *)
Lemma split_lines_no_sep (sep : ascii) (s line : string) :
  In line (JS.split sep s) -> JS.includes line (String sep "") = false.
Proof.
  revert line. induction s as [|c rest IH]; simpl; intros line Hin.
  - destruct Hin as [<-|[]]. reflexivity.
  - destruct (Ascii.eqb_spec c sep) as [->|Hne].
    + destruct Hin as [<-|Hin]; [reflexivity | now apply IH].
    + pose proof (split_not_nil sep rest) as Hnil.
      destruct (JS.split sep rest) as [|l ls] eqn:E; [congruence|].
      destruct Hin as [<-|Hin].
      * simpl. apply Ascii.eqb_neq in Hne. rewrite Hne. simpl.
        specialize (IH l (or_introl eq_refl)).
        destruct l; simpl in *; exact IH.
      * apply IH. now right.
Qed.

Lemma startsWith_spec (s t : string) :
  JS.startsWith s t = true <-> exists r, s = (t ++ r)%string.
Proof.
  revert s. induction t as [|b t' IH]; intros s; simpl.
  - split; [intros _; now exists s | reflexivity].
  - destruct s as [|a s'].
    + split; [discriminate | intros [r H]; discriminate].
    + rewrite andb_true_iff, IH. split.
      * intros [Hab [r ->]]. apply Ascii.eqb_eq in Hab. subst. now exists r.
      * intros [r H]. injection H as -> ->. split; [apply Ascii.eqb_refl | now exists r].
Qed.

(** [includes] is substring containment. *)
Lemma includes_spec (s t : string) :
  JS.includes s t = true <-> exists pre post, s = (pre ++ t ++ post)%string.
Proof.
  induction s as [|a s' IH].
  - cbn [JS.includes]. rewrite orb_false_r, startsWith_spec. split.
    + intros [r H]. now exists "", r.
    + intros [pre [post H]]. destruct pre; [now exists post | discriminate].
  - cbn [JS.includes]. rewrite orb_true_iff, startsWith_spec, IH. split.
    + intros [[r H] | [pre [post H]]].
      * now exists "", r.
      * exists (String a pre), post. simpl. now rewrite H.
    + intros [pre [post H]]. destruct pre as [|c pre].
      * left. now exists post.
      * right. simpl in H. injection H as _ H. now exists pre, post.
Qed.

Lemma toLowerCase_length (s : string) :
  String.length (JS.toLowerCase s) = String.length s.
Proof. induction s; simpl; congruence. Qed.

Lemma lowerUnit_idempotent (c : ascii) :
  JS.lowerUnit (JS.lowerUnit c) = JS.lowerUnit c.
Proof.
  destruct c as [[] [] [] [] [] [] [] []]; reflexivity.
Qed.

Lemma toLowerCase_idempotent (s : string) :
  JS.toLowerCase (JS.toLowerCase s) = JS.toLowerCase s.
Proof.
  induction s; simpl; [reflexivity|].
  now rewrite lowerUnit_idempotent, IHs.
Qed.

Lemma truthy_false (s : string) : JS.truthy s = false <-> s = "".
Proof. destruct s; simpl; split; congruence. Qed.

End StringFacts.

Lemma filter_Subsequence {A} (f : A -> bool) (l : list A) :
  Subsequence (filter f l) l.
Proof.
  induction l as [|x l IH]; simpl; [constructor|].
  destruct (f x); now constructor.
Qed.

(** ** How the methods run *)

Section RunFacts.

Context {Page : Type}.
Variable host : Host Page.

Lemma validate_ok (p : string) :
  validPath host p = true ->
  _validateFilePath host p = ([FsExistsSync p], Return tt).
Proof.
  unfold validPath, _validateFilePath. intros H.
  apply andb_true_iff in H as [Hex Hext].
  unfold_run. rewrite Hex. simpl. rewrite Hext. reflexivity.
Qed.

Lemma validate_missing (p : string) :
  existsSync host p = false ->
  _validateFilePath host p
  = ([FsExistsSync p],
     Throw (PDFKitError ("File not found: " ++ p) "FileNotFound")).
Proof.
  unfold _validateFilePath. intros Hex. unfold_run. now rewrite Hex.
Qed.

Lemma validate_wrong_type (p : string) :
  existsSync host p = true ->
  String.eqb (JS.toLowerCase (extname host p)) ".pdf" = false ->
  _validateFilePath host p
  = ([FsExistsSync p],
     Throw (PDFKitError ("Invalid file type. Expected .pdf, got "
                         ++ JS.toLowerCase (extname host p))
                        "InvalidFileType")).
Proof.
  unfold _validateFilePath. intros Hex Hext. unfold_run.
  rewrite Hex. simpl. now rewrite Hext.
Qed.

(** [_validateFilePath] ends in one of three ways, always after the one
    existence check. *)
Lemma validate_cases (p : string) :
  (validPath host p = true /\
   _validateFilePath host p = ([FsExistsSync p], Return tt))
  \/ (validPath host p = false /\
      exists m tag,
        _validateFilePath host p = ([FsExistsSync p], Throw (PDFKitError m tag))
        /\ (tag = "FileNotFound" \/ tag = "InvalidFileType")).
Proof.
  destruct (existsSync host p) eqn:Hex.
  - destruct (String.eqb (JS.toLowerCase (extname host p)) ".pdf") eqn:Hext.
    + left. assert (Hv : validPath host p = true)
        by (unfold validPath; now rewrite Hex, Hext).
      split; [exact Hv | now apply validate_ok].
    + right. split; [unfold validPath; now rewrite Hex, Hext|].
      eexists _, _. split; [now apply validate_wrong_type | now right].
  - right. split; [unfold validPath; now rewrite Hex|].
    eexists _, _. split; [now apply validate_missing | now left].
Qed.

(** The three ways [intoarray] ends on a path that passes validation. *)
Lemma intoarray_ok (p : string) (pdf : Buffer) (data : PdfData) :
  validPath host p = true ->
  readFileSync host p = Ok pdf ->
  pdfparse host pdf = Ok data ->
  intoarray host p
  = ([FsExistsSync p; FsReadFileSync p; PdfParse pdf],
     Return (JS.split JS.LF (text data))).
Proof.
  intros Hv Hread Hparse. unfold intoarray.
  rewrite (validate_ok p Hv). unfold_run. simpl.
  rewrite Hread, Hparse. reflexivity.
Qed.

Lemma intoarray_read_fails (p m : string) :
  validPath host p = true ->
  readFileSync host p = Raise m ->
  intoarray host p
  = ([FsExistsSync p; FsReadFileSync p],
     Throw (PDFKitError ("Failed to parse PDF: " ++ m) "ParseError")).
Proof.
  intros Hv Hread. unfold intoarray.
  rewrite (validate_ok p Hv). unfold_run. simpl.
  rewrite Hread. reflexivity.
Qed.

Lemma intoarray_parse_fails (p : string) (pdf : Buffer) (m : string) :
  validPath host p = true ->
  readFileSync host p = Ok pdf ->
  pdfparse host pdf = Raise m ->
  intoarray host p
  = ([FsExistsSync p; FsReadFileSync p; PdfParse pdf],
     Throw (PDFKitError ("Failed to parse PDF: " ++ m) "ParseError")).
Proof.
  intros Hv Hread Hparse. unfold intoarray.
  rewrite (validate_ok p Hv). unfold_run. simpl.
  rewrite Hread, Hparse. reflexivity.
Qed.

(** Whatever [intoarray] throws is a [PDFKitError] with one of three tags. *)
Lemma intoarray_throws (p : string) (err : JsError) :
  completion (intoarray host p) = Throw err ->
  exists m tag, err = PDFKitError m tag
                /\ In tag ["FileNotFound"; "InvalidFileType"; "ParseError"].
Proof.
  intros H.
  destruct (validate_cases p) as [[Hv _] | [_ (m & tag & Hval & Htag)]].
  - destruct (readFileSync host p) as [pdf|m] eqn:Hread.
    + destruct (pdfparse host pdf) as [data|m] eqn:Hparse.
      * rewrite (intoarray_ok p pdf data Hv Hread Hparse) in H. discriminate.
      * rewrite (intoarray_parse_fails p pdf m Hv Hread Hparse) in H.
        injection H as <-. eexists _, _. split; [reflexivity | simpl; auto].
    + rewrite (intoarray_read_fails p m Hv Hread) in H.
      injection H as <-. eexists _, _. split; [reflexivity | simpl; auto].
  - unfold intoarray in H. rewrite Hval in H. unfold_run. simpl in H.
    injection H as <-. exists m, tag. split; [reflexivity|].
    destruct Htag as [-> | ->]; simpl; auto.
Qed.

(** If [intoarray] returns, the path was valid and both the read and the
    decoding succeeded. *)
Lemma intoarray_returns (p : string) (lines : list string) :
  completion (intoarray host p) = Return lines ->
  validPath host p = true /\
  exists pdf data,
    readFileSync host p = Ok pdf /\ pdfparse host pdf = Ok data /\
    lines = JS.split JS.LF (text data) /\
    intoarray host p = ([FsExistsSync p; FsReadFileSync p; PdfParse pdf], Return lines).
Proof.
  intros H.
  destruct (validate_cases p) as [[Hv _] | [_ (m & tag & Hval & _)]].
  - split; [exact Hv|].
    destruct (readFileSync host p) as [pdf|m] eqn:Hread.
    + destruct (pdfparse host pdf) as [data|m] eqn:Hparse.
      * pose proof (intoarray_ok p pdf data Hv Hread Hparse) as Hrun.
        rewrite Hrun in H. injection H as <-.
        exists pdf, data. auto.
      * rewrite (intoarray_parse_fails p pdf m Hv Hread Hparse) in H. discriminate.
    + rewrite (intoarray_read_fails p m Hv Hread) in H. discriminate.
  - unfold intoarray in H. rewrite Hval in H. unfold_run. simpl in H. discriminate.
Qed.

End RunFacts.

(** ** Validation comes first *)

Section Validation.

Context {Page : Type}.
Variable host : Host Page.

(** A method body that starts with [this._validateFilePath(p)] inside
    [try], under the usual [catch]: a validation error leaves unchanged. *)
Lemma guarded_rejects {A} (p : string) (rest : Run Page A)
      (prefix tag' : string) (t : list (Event Page)) (m tag : string) :
  _validateFilePath host p = (t, Throw (PDFKitError m tag)) ->
  tryCatch (bind (_validateFilePath host p) (fun _ => rest)) (rethrow prefix tag')
  = (t, Throw (PDFKitError m tag)).
Proof.
  intros ->. unfold_run. simpl. now rewrite app_nil_r.
Qed.

Lemma guarded_failsBeforeWork {A} (p : string) (rest : Run Page A)
      (prefix tag' m tag : string) :
  _validateFilePath host p = ([FsExistsSync p], Throw (PDFKitError m tag)) ->
  failsBeforeWork p tag
    (tryCatch (bind (_validateFilePath host p) (fun _ => rest)) (rethrow prefix tag')).
Proof.
  intros H. rewrite (guarded_rejects p rest prefix tag' _ m tag H).
  repeat split.
Qed.

(** All six methods at once, for any arguments besides the path. *)
Lemma every_operation_rejects (p m tag term : string) (opts : Options)
      (out : option string) (nums : option (list JsNumber)) :
  _validateFilePath host p = ([FsExistsSync p], Throw (PDFKitError m tag)) ->
  failsBeforeWork p tag (intoarray host p) /\
  failsBeforeWork p tag (getPageCount host p) /\
  failsBeforeWork p tag (searchText host p term opts) /\
  failsBeforeWork p tag (extractPages host p out nums) /\
  failsBeforeWork p tag (getMetadata host p) /\
  failsBeforeWork p tag (convertToText host p out).
Proof.
  intros H.
  repeat split; try (eapply guarded_failsBeforeWork; exact H); reflexivity.
Qed.

End Validation.

(** C7.  Every public operation ([intoarray], [getPageCount], [searchText],
    [extractPages], [getMetadata], [convertToText]), whatever its other
    arguments: when [fs.existsSync] denies the path the call fails with
    [FileNotFound]; when the path exists and its lower-cased extension is not
    [.pdf] the call fails with [InvalidFileType]; in both cases the only
    outside call made is the existence check, so no file is read and neither
    [pdf-parse] nor [pdf-lib] is invoked. *)
Theorem validation_precedes_every_operation
    {Page} (host : Host Page) (p term : string) (opts : Options)
    (out : option string) (nums : option (list JsNumber)) :
  (existsSync host p = false ->
     failsBeforeWork p "FileNotFound" (intoarray host p) /\
     failsBeforeWork p "FileNotFound" (getPageCount host p) /\
     failsBeforeWork p "FileNotFound" (searchText host p term opts) /\
     failsBeforeWork p "FileNotFound" (extractPages host p out nums) /\
     failsBeforeWork p "FileNotFound" (getMetadata host p) /\
     failsBeforeWork p "FileNotFound" (convertToText host p out))
  /\
  (existsSync host p = true ->
   String.eqb (JS.toLowerCase (extname host p)) ".pdf" = false ->
     failsBeforeWork p "InvalidFileType" (intoarray host p) /\
     failsBeforeWork p "InvalidFileType" (getPageCount host p) /\
     failsBeforeWork p "InvalidFileType" (searchText host p term opts) /\
     failsBeforeWork p "InvalidFileType" (extractPages host p out nums) /\
     failsBeforeWork p "InvalidFileType" (getMetadata host p) /\
     failsBeforeWork p "InvalidFileType" (convertToText host p out)).
Proof.
  split.
  - intros Hex. eapply every_operation_rejects. now apply validate_missing.
  - intros Hex Hext. eapply every_operation_rejects.
    now apply validate_wrong_type.
Qed.

Lemma validation_precedes_every_operation_witness :
  (existsSync Sample.host "/docs/missing.pdf" = false
   /\ failsBeforeWork "/docs/missing.pdf" "FileNotFound"
        (extractPages Sample.host "/docs/missing.pdf" (Some "/out/x.pdf") (Some (integers [1]%Z))))
  /\
  (existsSync Sample.host "/docs/notes.txt" = true
   /\ String.eqb (JS.toLowerCase (extname Sample.host "/docs/notes.txt")) ".pdf" = false
   /\ failsBeforeWork "/docs/notes.txt" "InvalidFileType"
        (getMetadata Sample.host "/docs/notes.txt")).
Proof.
  split.
  - split; [reflexivity|].
    apply (proj1 (validation_precedes_every_operation
                    Sample.host "/docs/missing.pdf" "x" OptionsUndefined
                    (Some "/out/x.pdf") (Some (integers [1]%Z))) eq_refl).
  - split; [reflexivity|]. split; [reflexivity|].
    apply (proj2 (validation_precedes_every_operation
                    Sample.host "/docs/notes.txt" "x" OptionsUndefined
                    None None) eq_refl eq_refl).
Defined.

(** ** [searchText]: the empty term and the error tags *)

Section Search.

Context {Page : Type}.
Variable host : Host Page.

(** The run of [searchText] once validation and destructuring are past and
    the term is not empty: the lines of [intoarray], filtered. *)
Lemma searchText_filters (p term : string) (opts : Options)
      (t : list (Event Page)) (lines : list string) :
  validPath host p = true ->
  opts <> OptionsNull ->
  JS.truthy term = true ->
  intoarray host p = (t, Return lines) ->
  searchText host p term opts
  = (FsExistsSync p :: t,
     Return (filter (searchFunc (caseSensitiveOf opts) term) lines)).
Proof.
  intros Hv Hopts Hterm Hlines. unfold searchText.
  rewrite (validate_ok host p Hv), Hlines.
  destruct opts as [| |[b|]]; try congruence;
    unfold_run; simpl; rewrite Hterm; simpl; now rewrite app_nil_r.
Qed.

(** When [intoarray] throws inside [searchText], the error leaves as is. *)
Lemma searchText_inner_throw (p term : string) (opts : Options)
      (t : list (Event Page)) (m tag : string) :
  validPath host p = true ->
  opts <> OptionsNull ->
  JS.truthy term = true ->
  intoarray host p = (t, Throw (PDFKitError m tag)) ->
  searchText host p term opts = (FsExistsSync p :: t, Throw (PDFKitError m tag)).
Proof.
  intros Hv Hopts Hterm Hlines. unfold searchText.
  rewrite (validate_ok host p Hv), Hlines.
  destruct opts as [| |[b|]]; try congruence;
    unfold_run; simpl; rewrite Hterm; simpl; now rewrite app_nil_r.
Qed.

Lemma searchText_empty_term (p : string) (opts : Options) :
  validPath host p = true ->
  opts <> OptionsNull ->
  searchText host p "" opts
  = ([FsExistsSync p],
     Throw (PDFKitError "Invalid search terms provided" "InvalidSearchTerm")).
Proof.
  intros Hv Hopts. unfold searchText. rewrite (validate_ok host p Hv).
  destruct opts as [| |[b|]]; try congruence; reflexivity.
Qed.

Lemma searchText_null_options (p term : string) :
  validPath host p = true ->
  searchText host p term OptionsNull
  = ([FsExistsSync p],
     Throw (PDFKitError
       ("Failed to search PDF: " ++
        "Cannot destructure property 'caseSensitive' of 'options' as it is null.")
       "SearchError")).
Proof.
  intros Hv. unfold searchText. rewrite (validate_ok host p Hv). reflexivity.
Qed.

End Search.

(** C1 as stated fails: with an empty term and a path that does not exist,
    [searchText] throws [FileNotFound], not [InvalidSearchTerm]. *)
Lemma empty_term_on_missing_file :
  ~ (forall (host : Host Byte.byte) (p : string) (opts : Options),
       thrownType (searchText host p "" opts) = Some "InvalidSearchTerm").
Proof.
  intros H.
  specialize (H Sample.host "/docs/missing.pdf" OptionsUndefined).
  vm_compute in H. discriminate.
Qed.

(** C1, amended.  On a path that passes validation, and with [options]
    [undefined] or an object, [searchText] with the empty search term throws
    the [PDFKitError] tagged [InvalidSearchTerm], right after the existence
    check. *)
Theorem empty_term_after_validation
    {Page} (host : Host Page) (p : string) (opts : Options) :
  validPath host p = true ->
  opts <> OptionsNull ->
  searchText host p "" opts
  = ([FsExistsSync p],
     Throw (PDFKitError "Invalid search terms provided" "InvalidSearchTerm"))
  /\ thrownType (searchText host p "" opts) = Some "InvalidSearchTerm".
Proof.
  intros Hv Hopts. rewrite (searchText_empty_term host p opts Hv Hopts).
  split; reflexivity.
Qed.

Lemma empty_term_after_validation_witness :
  validPath Sample.host "/docs/report.pdf" = true
  /\ OptionsObject (Some true) <> OptionsNull
  /\ thrownType (searchText Sample.host "/docs/report.pdf" "" (OptionsObject (Some true)))
     = Some "InvalidSearchTerm".
Proof.
  split; [reflexivity|]. split; [discriminate|].
  apply (empty_term_after_validation Sample.host "/docs/report.pdf"
           (OptionsObject (Some true)));
    [reflexivity | discriminate].
Defined.

(** C2 as stated fails: when [pdf-parse] rejects the file, the [ParseError]
    of the nested [intoarray] reaches the caller of [searchText]. *)
Lemma search_surfaces_ParseError :
  ~ (forall (host : Host Byte.byte) (p term : string) (opts : Options) (tag : string),
       thrownType (searchText host p term opts) = Some tag ->
       In tag listedSearchTags).
Proof.
  intros H.
  specialize (H Sample.host "/docs/broken.pdf" "Foo" OptionsUndefined "ParseError" eq_refl).
  simpl in H. repeat destruct H as [H|H]; try discriminate H. exact H.
Qed.

(** C2, amended.  Whatever [searchText] throws is a [PDFKitError] whose tag
    is one of [FileNotFound], [InvalidFileType], [InvalidSearchTerm],
    [ParseError], [SearchError]. *)
Theorem search_error_tags
    {Page} (host : Host Page) (p term : string) (opts : Options) (err : JsError) :
  completion (searchText host p term opts) = Throw err ->
  exists m tag, err = PDFKitError m tag /\ In tag observedSearchTags.
Proof.
  intros H.
  destruct (validate_cases host p) as [[Hv _] | [_ (m & tag & Hval & Htag)]].
  - destruct (OptionsNull_dec opts) as [-> | Hopts].
    + rewrite (searchText_null_options host p term Hv) in H.
      injection H as <-. eexists _, _. split; [reflexivity | simpl; auto 6].
    + destruct term as [|c term'].
      * rewrite (searchText_empty_term host p opts Hv Hopts) in H.
        injection H as <-. eexists _, _. split; [reflexivity | simpl; auto 6].
      * destruct (intoarray host p) as [t [lines|err']] eqn:Hinto.
        -- rewrite (searchText_filters host p (String c term') opts t lines Hv Hopts eq_refl Hinto) in H.
           discriminate.
        -- assert (Hc : completion (intoarray host p) = Throw err')
             by now rewrite Hinto.
           destruct (intoarray_throws host p err' Hc) as (m & tag & -> & Htag).
           rewrite (searchText_inner_throw host p (String c term') opts t m tag Hv Hopts eq_refl Hinto) in H.
           injection H as <-. exists m, tag. split; [reflexivity|].
           simpl in Htag. simpl. intuition.
  - assert (Hrun : searchText host p term opts
                   = ([FsExistsSync p], Throw (PDFKitError m tag)))
      by (unfold searchText; now apply guarded_rejects).
    rewrite Hrun in H. injection H as <-. exists m, tag. split; [reflexivity|].
    destruct Htag as [-> | ->]; simpl; auto.
Qed.

Lemma search_error_tags_witness :
  completion (searchText Sample.host "/docs/broken.pdf" "Foo" OptionsUndefined)
  = Throw (PDFKitError "Failed to parse PDF: Invalid PDF structure" "ParseError")
  /\ exists m tag,
       PDFKitError "Failed to parse PDF: Invalid PDF structure" "ParseError"
       = PDFKitError m tag /\ In tag observedSearchTags.
Proof.
  split; [reflexivity|].
  apply (search_error_tags Sample.host "/docs/broken.pdf" "Foo" OptionsUndefined).
  reflexivity.
Defined.

(** ** [intoarray] *)

(** C5.  On a path that passes validation, when the file is read and
    [pdf-parse] resolves, [intoarray] returns the decoded text split at every
    newline: the lines hold no newline and joined by newlines give the text
    back.  The result has at least one element; the text ["a\nb\nc"] gives
    [["a"; "b"; "c"]] and the empty text gives [[""]]. *)
Theorem intoarray_splits_on_newlines
    {Page} (host : Host Page) (p : string) (pdf : Buffer) (data : PdfData) :
  validPath host p = true ->
  readFileSync host p = Ok pdf ->
  pdfparse host pdf = Ok data ->
  completion (intoarray host p) = Return (JS.split JS.LF (text data))
  /\ JS.join newline (JS.split JS.LF (text data)) = text data
  /\ (forall line, In line (JS.split JS.LF (text data)) ->
        JS.includes line newline = false)
  /\ 1 <= length (JS.split JS.LF (text data))
  /\ JS.split JS.LF text_a_b_c = ["a"; "b"; "c"]
  /\ JS.split JS.LF "" = [""].
Proof.
  intros Hv Hread Hparse.
  rewrite (intoarray_ok host p pdf data Hv Hread Hparse).
  split; [reflexivity|].
  split; [apply join_split|].
  split; [intros line; apply split_lines_no_sep|].
  split; [apply split_length|].
  split; reflexivity.
Qed.

Lemma intoarray_splits_on_newlines_witness :
  validPath Sample.host "/docs/abc.pdf" = true
  /\ readFileSync Sample.host "/docs/abc.pdf" = Ok [Byte.x61]
  /\ completion (intoarray Sample.host "/docs/abc.pdf") = Return ["a"; "b"; "c"].
Proof.
  split; [reflexivity|]. split; [reflexivity|].
  apply (intoarray_splits_on_newlines Sample.host "/docs/abc.pdf" [Byte.x61]
           {| text := text_a_b_c; numpages := 1 |});
    reflexivity.
Defined.

Example sample_intoarray_empty :
  completion (intoarray Sample.host "/docs/empty.pdf") = Return [""].
Proof. reflexivity. Qed.

(** ** [searchText]: the lines returned *)

Lemma searchFunc_contains (caseSensitive : bool) (term line : string) :
  searchFunc caseSensitive term line = true <-> contains caseSensitive line term.
Proof.
  unfold searchFunc, contains, fold.
  destruct caseSensitive; apply includes_spec.
Qed.

(** C6.  When [intoarray] returns [lines] for the path, the term is not
    empty and [options] is [undefined] or an object, [searchText] returns the
    lines that contain the term, in their order in [lines] and as often as
    they occur there: exactly the lines kept by the containment test, which
    lower-cases line and term unless [caseSensitive] is true. *)
Theorem searchText_returns_matching_lines
    {Page} (host : Host Page) (p term : string) (opts : Options)
    (lines : list string) :
  completion (intoarray host p) = Return lines ->
  term <> "" ->
  opts <> OptionsNull ->
  let found := filter (searchFunc (caseSensitiveOf opts) term) lines in
  completion (searchText host p term opts) = Return found
  /\ Subsequence found lines
  /\ (forall line, In line found <->
                   In line lines /\ contains (caseSensitiveOf opts) line term)
  /\ (forall line, searchFunc (caseSensitiveOf opts) term line = true <->
                   contains (caseSensitiveOf opts) line term).
Proof.
  intros Hlines Hterm Hopts found.
  destruct (intoarray_returns host p lines Hlines) as (Hv & pdf & data & _ & _ & _ & Hrun).
  assert (Htruthy : JS.truthy term = true) by (destruct term; [congruence | reflexivity]).
  rewrite (searchText_filters host p term opts _ lines Hv Hopts Htruthy Hrun).
  split; [reflexivity|].
  split; [apply filter_Subsequence|].
  split.
  - intros line. unfold found. rewrite filter_In, searchFunc_contains. reflexivity.
  - intros line. apply searchFunc_contains.
Qed.

Lemma searchText_returns_matching_lines_witness :
  completion (intoarray Sample.host "/docs/report.pdf")
  = Return ["Foo one"; "foo two"; "bar"; "FOO three"; "a fOo"]
  /\ "Foo" <> ""
  /\ OptionsObject (Some false) <> OptionsNull
  /\ completion (searchText Sample.host "/docs/report.pdf" "Foo" (OptionsObject (Some false)))
     = Return ["Foo one"; "foo two"; "FOO three"; "a fOo"].
Proof.
  split; [reflexivity|]. split; [discriminate|]. split; [discriminate|].
  apply (searchText_returns_matching_lines Sample.host "/docs/report.pdf" "Foo"
           (OptionsObject (Some false))
           ["Foo one"; "foo two"; "bar"; "FOO three"; "a fOo"]);
    [reflexivity | discriminate | discriminate].
Defined.

(** The lines of the specification's example, under both settings. *)
Example fold_example :
  (filter (searchFunc false "Foo") ["foo"; "FOO"; "fOo"; "Foo"; "fo o"],
   filter (searchFunc true "Foo") ["foo"; "FOO"; "fOo"; "Foo"; "fo o"])
  = (["foo"; "FOO"; "fOo"; "Foo"], ["Foo"]).
Proof. reflexivity. Qed.

(** ** [convertToText] *)

Section Convert.

Context {Page : Type}.
Variable host : Host Page.

(** The run of [convertToText] once [intoarray] has returned. *)
Lemma convertToText_run (p : string) (out : option string)
      (t : list (Event Page)) (lines : list string) :
  validPath host p = true ->
  intoarray host p = (t, Return lines) ->
  convertToText host p out
  = if given out
    then
      let o := match out with Some q => q | None => "" end in
      (FsExistsSync p :: t ++ [FsWriteFileSync o (TextData (JS.join newline lines))],
       match writeFileSync host o (TextData (JS.join newline lines)) with
       | Ok _ => Return ""
       | Raise m => Throw (PDFKitError ("Failed to convert PDF to text: " ++ m)
                                       "ConvertToTextError")
       end)
    else (FsExistsSync p :: t, Return (JS.join newline lines)).
Proof.
  intros Hv Hrun. unfold convertToText.
  rewrite (validate_ok host p Hv), Hrun.
  destruct (given out); unfold_run; simpl.
  - fold newline.
    destruct (writeFileSync host _ (TextData (JS.join newline lines))); simpl;
      now rewrite ?app_nil_r.
  - now rewrite app_nil_r.
Qed.

End Convert.

(** C4.  When [intoarray] returns [lines] for the path: [convertToText]
    without an output path returns [lines.join("\n")]; with a non-empty
    output path its last outside call is the write of that same string to
    that path, and when the write returns it returns the empty string.  (A
    write that throws surfaces as [ConvertToTextError].) *)
Theorem convertToText_joins_intoarray
    {Page} (host : Host Page) (p : string) (lines : list string) :
  completion (intoarray host p) = Return lines ->
  completion (convertToText host p None) = Return (JS.join newline lines)
  /\ forall out : string,
       out <> "" ->
       trace (convertToText host p (Some out))
       = FsExistsSync p :: trace (intoarray host p)
         ++ [FsWriteFileSync out (TextData (JS.join newline lines))]
       /\ completion (convertToText host p (Some out))
          = match writeFileSync host out (TextData (JS.join newline lines)) with
            | Ok _ => Return ""
            | Raise m => Throw (PDFKitError ("Failed to convert PDF to text: " ++ m)
                                            "ConvertToTextError")
            end.
Proof.
  intros Hlines.
  destruct (intoarray_returns host p lines Hlines) as (Hv & pdf & data & _ & _ & _ & Hrun).
  split.
  - now rewrite (convertToText_run host p None _ lines Hv Hrun).
  - intros out Hout.
    rewrite (convertToText_run host p (Some out) _ lines Hv Hrun), Hrun.
    assert (Hgiven : given (Some out) = true)
      by (destruct out; [congruence | reflexivity]).
    rewrite Hgiven. split; reflexivity.
Qed.

Lemma convertToText_joins_intoarray_witness :
  completion (intoarray Sample.host "/docs/abc.pdf") = Return ["a"; "b"; "c"]
  /\ completion (convertToText Sample.host "/docs/abc.pdf" None) = Return text_a_b_c
  /\ convertToText Sample.host "/docs/abc.pdf" (Some "/out/abc.txt")
     = ([FsExistsSync "/docs/abc.pdf"; FsExistsSync "/docs/abc.pdf";
         FsReadFileSync "/docs/abc.pdf"; PdfParse [Byte.x61];
         FsWriteFileSync "/out/abc.txt" (TextData text_a_b_c)],
        Return "").
Proof.
  pose proof (convertToText_joins_intoarray Sample.host "/docs/abc.pdf"
                ["a"; "b"; "c"] eq_refl) as [Hnone Hsome].
  split; [reflexivity|]. split; [exact Hnone|].
  destruct (Hsome "/out/abc.txt") as [Htrace Hdone]; [discriminate|].
  apply injective_projections; [exact Htrace | exact Hdone].
Defined.

Example sample_convert_readonly :
  completion (convertToText Sample.host "/docs/abc.pdf" (Some "/readonly/abc.txt"))
  = Throw (PDFKitError
      "Failed to convert PDF to text: EACCES: permission denied, open '/readonly/abc.txt'"
      "ConvertToTextError").
Proof. reflexivity. Qed.

(** ** [getMetadata] *)

Lemma getMetadata_returns
    {Page} (host : Host Page) (p : string) (md : PdfMetadata) :
  completion (getMetadata host p) = Return md ->
  exists pdf data,
    readFileSync host p = Ok pdf /\ pdfparse host pdf = Ok data /\
    md = {| totalPages := numpages data;
            totalText := text data;
            textLength := Z.of_nat (String.length (text data));
            filename := basename host p |}.
Proof.
  intros H. unfold getMetadata in H.
  destruct (validate_cases host p) as [[_ Hval] | [_ (m & tag & Hval & _)]];
    rewrite Hval in H; unfold_run; simpl in H; [|discriminate].
  destruct (readFileSync host p) as [pdf|m] eqn:Hread; simpl in H; [|discriminate].
  destruct (pdfparse host pdf) as [data|m] eqn:Hparse; simpl in H; [|discriminate].
  injection H as <-. now exists pdf, data.
Qed.

(** C8.  Whenever [getMetadata] returns a record, its [textLength] is the
    length of its [totalText], and its [totalPages] and [totalText] are the
    [numpages] and [text] that [pdf-parse] resolved with for the bytes of the
    file. *)
Theorem getMetadata_lengths
    {Page} (host : Host Page) (p : string) (md : PdfMetadata) :
  completion (getMetadata host p) = Return md ->
  textLength md = Z.of_nat (String.length (totalText md))
  /\ exists pdf data,
       readFileSync host p = Ok pdf /\ pdfparse host pdf = Ok data
       /\ totalPages md = numpages data /\ totalText md = text data.
Proof.
  intros H.
  destruct (getMetadata_returns host p md H) as (pdf & data & Hread & Hparse & ->).
  split; [reflexivity|]. now exists pdf, data.
Qed.

Lemma getMetadata_lengths_witness :
  completion (getMetadata Sample.host "/docs/report.pdf")
  = Return {| totalPages := 5; totalText := Sample.reportText;
              textLength := 35; filename := "report.pdf" |}
  /\ 35%Z = Z.of_nat (String.length Sample.reportText).
Proof.
  split; [reflexivity|].
  apply (getMetadata_lengths Sample.host "/docs/report.pdf"
           {| totalPages := 5; totalText := Sample.reportText;
              textLength := 35; filename := "report.pdf" |}).
  reflexivity.
Defined.

(** POSIX [basename] gives one path component: no separator is left in it. *)
Lemma takeWhile_Forall (f : ascii -> bool) (l : list ascii) :
  Forall (fun c => f c = true) (Posix.takeWhile f l).
Proof.
  induction l as [|c r IH]; simpl; [constructor|].
  destruct (f c) eqn:E; constructor; assumption.
Qed.

Lemma includes_unit_false (c : ascii) (l : list ascii) :
  Forall (fun a => Ascii.eqb a c = false) l ->
  JS.includes (string_of_list_ascii l) (String c "") = false.
Proof.
  induction 1 as [|a r Ha _ IH]; simpl; [reflexivity|].
  now rewrite Ha, IH.
Qed.

Lemma posix_basename_no_slash (p : string) :
  JS.includes (Posix.basename p) "/" = false.
Proof.
  unfold Posix.basename. apply (includes_unit_false Posix.slash).
  apply Forall_rev. unfold Posix.lastPortionRev.
  eapply Forall_impl; [|apply takeWhile_Forall].
  intros a Ha. now apply negb_true_iff in Ha.
Qed.

(** C9.  Whenever [getMetadata] returns a record, its [filename] is
    [path.basename] of the path it was given: the last component of the
    path, which under POSIX [basename] holds no directory separator, and not
    the path as a whole. *)
Theorem getMetadata_filename
    {Page} (host : Host Page) (p : string) (md : PdfMetadata) :
  completion (getMetadata host p) = Return md ->
  filename md = basename host p
  /\ ((forall q, basename host q = Posix.basename q) ->
      JS.includes (filename md) "/" = false).
Proof.
  intros H.
  destruct (getMetadata_returns host p md H) as (pdf & data & _ & _ & ->).
  split; [reflexivity|].
  intros Hposix. simpl. rewrite Hposix. apply posix_basename_no_slash.
Qed.

Lemma getMetadata_filename_witness :
  completion (getMetadata Sample.host "/docs/report.pdf")
  = Return {| totalPages := 5; totalText := Sample.reportText;
              textLength := 35; filename := "report.pdf" |}
  /\ "report.pdf" = Posix.basename "/docs/report.pdf"
  /\ JS.includes "report.pdf" "/" = false.
Proof.
  split; [reflexivity|].
  destruct (getMetadata_filename Sample.host "/docs/report.pdf"
              {| totalPages := 5; totalText := Sample.reportText;
                 textLength := 35; filename := "report.pdf" |} eq_refl)
    as [Hname Hcomponent].
  split; [exact Hname|].
  apply Hcomponent. intros q. reflexivity.
Defined.

(** ** The two versions of [intoarray] *)

Section Versions.

Context {Page : Type}.
Variable host : Host Page.

Lemma intoarray_v0_ok (p : string) (pdf : Buffer) (data : PdfData) :
  readFileSync host p = Ok pdf ->
  pdfparse host pdf = Ok data ->
  intoarray_v0 host p
  = ([FsReadFileSync p; PdfParse pdf], Return (JS.split JS.LF (text data))).
Proof.
  intros Hread Hparse. unfold intoarray_v0. unfold_run.
  rewrite Hread, Hparse. reflexivity.
Qed.

(** The earlier version throws what the collaborator threw. *)
Lemma intoarray_v0_throws (p : string) (err : JsError) :
  completion (intoarray_v0 host p) = Throw err ->
  exists m, err = Error m /\
            (readFileSync host p = Raise m \/
             exists pdf, readFileSync host p = Ok pdf /\ pdfparse host pdf = Raise m).
Proof.
  unfold intoarray_v0. unfold_run. intros H.
  destruct (readFileSync host p) as [pdf|m] eqn:Hread; simpl in H.
  - destruct (pdfparse host pdf) as [data|m] eqn:Hparse; simpl in H; [discriminate|].
    injection H as <-. exists m. split; [reflexivity|]. right. now exists pdf.
  - injection H as <-. exists m. split; [reflexivity | now left].
Qed.

End Versions.

(** C10.  On a path that passes validation, when the file is read and
    [pdf-parse] resolves, the [intoarray] of [src/index.js] and the earlier
    [intoarray] return the same lines.  The two differ only where one of them
    fails: whenever the current version returns, the earlier one returns the
    same; the earlier one throws the collaborator's own error, unwrapped,
    where the current one throws nothing but [PDFKitError]s. *)
Theorem intoarray_versions_agree
    {Page} (host : Host Page) (p : string) (pdf : Buffer) (data : PdfData) :
  validPath host p = true ->
  readFileSync host p = Ok pdf ->
  pdfparse host pdf = Ok data ->
  (completion (intoarray host p) = Return (JS.split JS.LF (text data))
   /\ completion (intoarray_v0 host p) = Return (JS.split JS.LF (text data)))
  /\ (forall (q : string) (lines : list string),
        completion (intoarray host q) = Return lines ->
        completion (intoarray_v0 host q) = Return lines)
  /\ (forall (q : string) (err : JsError),
        completion (intoarray_v0 host q) = Throw err ->
        exists m, err = Error m /\
                  (readFileSync host q = Raise m \/
                   exists b, readFileSync host q = Ok b /\ pdfparse host b = Raise m))
  /\ (forall (q : string) (err : JsError),
        completion (intoarray host q) = Throw err ->
        exists m tag, err = PDFKitError m tag).
Proof.
  intros Hv Hread Hparse.
  split; [split|split; [|split]].
  - now rewrite (intoarray_ok host p pdf data Hv Hread Hparse).
  - now rewrite (intoarray_v0_ok host p pdf data Hread Hparse).
  - intros q lines Hq.
    destruct (intoarray_returns host q lines Hq) as (_ & b & d & Hr & Hp & -> & _).
    now rewrite (intoarray_v0_ok host q b d Hr Hp).
  - intros q err. apply intoarray_v0_throws.
  - intros q err Hq.
    destruct (intoarray_throws host q err Hq) as (m & tag & -> & _).
    now exists m, tag.
Qed.

Lemma intoarray_versions_agree_witness :
  validPath Sample.host "/docs/abc.pdf" = true
  /\ readFileSync Sample.host "/docs/abc.pdf" = Ok [Byte.x61]
  /\ completion (intoarray Sample.host "/docs/abc.pdf") = Return ["a"; "b"; "c"]
  /\ completion (intoarray_v0 Sample.host "/docs/abc.pdf") = Return ["a"; "b"; "c"].
Proof.
  split; [reflexivity|]. split; [reflexivity|].
  apply (intoarray_versions_agree Sample.host "/docs/abc.pdf" [Byte.x61]
           {| text := text_a_b_c; numpages := 1 |});
    reflexivity.
Defined.

(** Where the versions part: a file that [pdf-parse] rejects, a file that
    does not exist, and a file whose name does not end in [.pdf]. *)
Example versions_on_broken_file :
  (completion (intoarray Sample.host "/docs/broken.pdf"),
   completion (intoarray_v0 Sample.host "/docs/broken.pdf"))
  = (Throw (PDFKitError "Failed to parse PDF: Invalid PDF structure" "ParseError"),
     Throw (Error "Invalid PDF structure")).
Proof. reflexivity. Qed.

Example versions_on_missing_file :
  (completion (intoarray Sample.host "/docs/missing.pdf"),
   completion (intoarray_v0 Sample.host "/docs/missing.pdf"))
  = (Throw (PDFKitError "File not found: /docs/missing.pdf" "FileNotFound"),
     Throw (Error "ENOENT: no such file or directory, open '/docs/missing.pdf'")).
Proof. reflexivity. Qed.

Example versions_on_text_file :
  (thrownType (intoarray Sample.host "/docs/notes.txt"),
   completion (intoarray_v0 Sample.host "/docs/notes.txt"))
  = (Some "InvalidFileType",
     Return ["Foo one"; "foo two"; "bar"; "FOO three"; "a fOo"]).
Proof. reflexivity. Qed.

(** ** [extractPages] *)

Section Extract.

Context {Page : Type}.

Lemma integerValue_integer (z : Z) : JS.integerValue (integer z) = Some z.
Proof.
  unfold JS.integerValue, integer, inject_Z. cbn [Qnum Qden].
  now rewrite Z.mod_1_r, Z.div_1_r.
Qed.

(** On an integer the guard of line 120 is the test [1 <= z <= pageCount]. *)
Lemma guard_of_integerValue (src : list Page) (n : JsNumber) (z : Z) :
  JS.integerValue n = Some z ->
  passesGuard src n = ((1 <=? z) && (z <=? pageCount src))%Z.
Proof.
  destruct n as [| | |[num den]]; try discriminate.
  unfold JS.integerValue. cbn [Qnum Qden].
  destruct (Z.eqb_spec (num mod Zpos den) 0) as [Hmod|]; [|discriminate].
  intros [= <-].
  assert (Hnum : (num = Zpos den * (num / Zpos den))%Z)
    by (apply Z_div_exact_full_2; [lia | exact Hmod]).
  unfold passesGuard, JS.gt, JS.le, JS.lt, integer, inject_Z, Qle_bool.
  cbn [Qnum Qden]. rewrite negb_involutive.
  set (z := (num / Zpos den)%Z) in *.
  f_equal.
  - destruct (Z.leb_spec (num * 1) (0 * Zpos den)), (Z.leb_spec 1 z);
      try reflexivity; nia.
  - destruct (Z.leb_spec (num * 1) (pageCount src * Zpos den)),
             (Z.leb_spec z (pageCount src)); try reflexivity; nia.
Qed.

(** A number that does not stray passes the guard exactly when it is in
    range. *)
Lemma guard_inRange (src : list Page) (n : JsNumber) :
  strays src n = false -> passesGuard src n = inRange src n.
Proof.
  unfold strays, inRange. intros H.
  destruct (JS.integerValue n) as [z|] eqn:Hz.
  - now apply guard_of_integerValue.
  - now rewrite andb_true_r in H.
Qed.

Lemma strays_integer (src : list Page) (z : Z) : strays src (integer z) = false.
Proof. unfold strays. rewrite integerValue_integer. apply andb_false_r. Qed.


Lemma inRange_iff (src : list Page) (z : Z) :
  inRange src (integer z) = true <-> (1 <= z <= pageCount src)%Z.
Proof.
  unfold inRange. rewrite integerValue_integer, andb_true_iff, !Z.leb_le.
  reflexivity.
Qed.

(** A number in range names a page; a number out of range names none. *)
Lemma pageNumbered_inRange (src : list Page) (n : JsNumber) :
  (exists page, pageNumbered src n = Some page) <-> inRange src n = true.
Proof.
  unfold pageNumbered, inRange.
  destruct (JS.integerValue n) as [z|]; [|split; [intros [? ?]|]; discriminate].
  destruct ((1 <=? z) && (z <=? pageCount src))%Z eqn:E.
  - split; [reflexivity | intros _].
    apply andb_true_iff in E as [H1 H2]. apply Z.leb_le in H1, H2.
    unfold pageCount in H2.
    destruct (nth_error src (Z.to_nat (z - 1))) as [page|] eqn:Hnth.
    + now exists page.
    + apply nth_error_None in Hnth. lia.
  - split; [intros [page H]; discriminate | discriminate].
Qed.


Lemma pageNumbered_out (src : list Page) (n : JsNumber) :
  inRange src n = false -> pageNumbered src n = None.
Proof.
  intros H. destruct (pageNumbered src n) as [page|] eqn:E; [|reflexivity].
  assert (Hin : inRange src n = true)
    by (apply pageNumbered_inRange; now exists page).
  congruence.
Qed.

Lemma requestedPages_length (src : list Page) (pageNumbers : list JsNumber) :
  length (requestedPages src pageNumbers)
  = length (filter (inRange src) pageNumbers).
Proof.
  induction pageNumbers as [|n rest IH]; simpl; [reflexivity|].
  rewrite length_app, IH.
  destruct (inRange src n) eqn:E.
  - destruct (proj2 (pageNumbered_inRange src n) E) as [page ->]. reflexivity.
  - rewrite (pageNumbered_out src n E). reflexivity.
Qed.


(** One turn of the loop on a number in range: its page is copied. *)
Lemma copyPages_inRange (src : list Page) (n : JsNumber) (page : Page) :
  pageNumbered src n = Some page ->
  copyPages src n = ([PdfLibCopyPages n], Return page).
Proof.
  unfold pageNumbered, copyPages, call.
  destruct (JS.integerValue n) as [z|]; [|discriminate].
  destruct ((1 <=? z) && (z <=? pageCount src))%Z eqn:E; [|discriminate].
  apply andb_true_iff in E as [H1 _]. apply Z.leb_le in H1.
  destruct (Z.ltb_spec z 1) as [Hlt|_]; [lia|].
  now intros ->.
Qed.

(** As long as no number strays the loop never throws: it appends the
    requested pages, in order. *)
Lemma copyLoop_run (src : list Page) (pageNumbers : list JsNumber)
      (dest : list Page) :
  forallb (fun n => negb (strays src n)) pageNumbers = true ->
  copyLoop src pageNumbers dest
  = (loopEvents src pageNumbers, Return (dest ++ requestedPages src pageNumbers)).
Proof.
  revert dest. induction pageNumbers as [|n rest IH]; intros dest Hall.
  - simpl. unfold ret. now rewrite app_nil_r.
  - cbn [forallb] in Hall. apply andb_true_iff in Hall as [Hn Hrest].
    apply negb_true_iff in Hn.
    cbn [copyLoop]. fold (passesGuard src n). rewrite (guard_inRange src n Hn).
    unfold requestedPages, loopEvents. cbn [flat_map].
    fold (requestedPages src rest). fold (loopEvents src rest).
    destruct (inRange src n) eqn:E.
    + destruct (proj2 (pageNumbered_inRange src n) E) as [page Hpage].
      rewrite Hpage, (copyPages_inRange src n page Hpage).
      unfold addPage. unfold_run. simpl.
      rewrite (IH _ Hrest). simpl. now rewrite <- app_assoc.
    + rewrite (pageNumbered_out src n E). unfold_run. simpl.
      rewrite (IH _ Hrest). reflexivity.
Qed.

Variable host : Host Page.

(** The whole run when no number strays, up to what [save] and
    [fs.writeFileSync] answer. *)
Lemma extractPages_run (p out : string) (pageNumbers : list JsNumber)
      (bytes : Buffer) (src : list Page) :
  validPath host p = true ->
  out <> "" ->
  pageNumbers <> [] ->
  readFileSync host p = Ok bytes ->
  load host bytes = Ok src ->
  forallb (fun n => negb (strays src n)) pageNumbers = true ->
  extractPages host p (Some out) (Some pageNumbers)
  = match save host (requestedPages src pageNumbers) with
    | Ok pdfBytes =>
        ([FsExistsSync p; FsReadFileSync p; PdfLibLoad bytes; PdfLibCreate]
         ++ loopEvents src pageNumbers
         ++ [PdfLibSave (requestedPages src pageNumbers);
             FsWriteFileSync out (BinaryData pdfBytes)],
         match writeFileSync host out (BinaryData pdfBytes) with
         | Ok _ => Return tt
         | Raise m => Throw (PDFKitError ("Failed to extract pages: " ++ m)
                                         "ExtractPagesError")
         end)
    | Raise m =>
        ([FsExistsSync p; FsReadFileSync p; PdfLibLoad bytes; PdfLibCreate]
         ++ loopEvents src pageNumbers
         ++ [PdfLibSave (requestedPages src pageNumbers)],
         Throw (PDFKitError ("Failed to extract pages: " ++ m) "ExtractPagesError"))
    end.
Proof.
  intros Hv Hout Hnums Hread Hload Hall. unfold extractPages.
  rewrite (validate_ok host p Hv).
  assert (Hgiven : given (Some out) = true)
    by (destruct out; [congruence | reflexivity]).
  assert (Hvalid : invalidPageNumbers (Some pageNumbers) = false)
    by (destruct pageNumbers; [congruence | reflexivity]).
  rewrite Hgiven, Hvalid. unfold_run. simpl.
  rewrite Hread, Hload, (copyLoop_run src pageNumbers [] Hall). simpl.
  destruct (save host (requestedPages src pageNumbers)) as [pdfBytes|m]; simpl.
  - destruct (writeFileSync host out (BinaryData pdfBytes)) as [[]|m]; simpl;
      rewrite <- ?app_assoc; simpl; rewrite ?app_nil_r; reflexivity.
  - rewrite <- ?app_assoc; simpl; rewrite ?app_nil_r; reflexivity.
Qed.

End Extract.





(** * Further properties of the methods *)

(** ** The three methods that read and decode *)

Section ParseMethods.

Context {Page : Type}.
Variable host : Host Page.

(** The body shared by [intoarray], [getPageCount] and [getMetadata], for
    every answer of the host. *)
Lemma parse_method_run {A} (p prefix tag : string) (f : PdfData -> A) :
  tryCatch
    (bind (_validateFilePath host p) (fun _ =>
     bind (call (FsReadFileSync p) (readFileSync host p)) (fun pdf =>
     bind (call (PdfParse pdf) (pdfparse host pdf)) (fun data =>
     ret (f data)))))
    (rethrow prefix tag)
  = if validPath host p
    then match readFileSync host p with
         | Raise m => ([FsExistsSync p; FsReadFileSync p],
                       Throw (PDFKitError (prefix ++ m) tag))
         | Ok pdf => ([FsExistsSync p; FsReadFileSync p; PdfParse pdf],
                      match pdfparse host pdf with
                      | Ok data => Return (f data)
                      | Raise m => Throw (PDFKitError (prefix ++ m) tag)
                      end)
         end
    else ([FsExistsSync p],
          Throw (if existsSync host p
                 then PDFKitError ("Invalid file type. Expected .pdf, got "
                                   ++ JS.toLowerCase (extname host p))
                                  "InvalidFileType"
                 else PDFKitError ("File not found: " ++ p) "FileNotFound")).
Proof.
  unfold validPath, _validateFilePath. unfold_run.
  destruct (existsSync host p); simpl; [|reflexivity].
  destruct (String.eqb (JS.toLowerCase (extname host p)) ".pdf"); simpl;
    [|reflexivity].
  destruct (readFileSync host p) as [pdf|m]; simpl; [|reflexivity].
  destruct (pdfparse host pdf); reflexivity.
Qed.

(** Every way such a method fails. *)
Lemma parse_method_failures {A} (p prefix tag : string) (f : PdfData -> A)
      (err : JsError) :
  completion
    (tryCatch
       (bind (_validateFilePath host p) (fun _ =>
        bind (call (FsReadFileSync p) (readFileSync host p)) (fun pdf =>
        bind (call (PdfParse pdf) (pdfparse host pdf)) (fun data =>
        ret (f data)))))
       (rethrow prefix tag)) = Throw err ->
  (existsSync host p = false
   /\ err = PDFKitError ("File not found: " ++ p) "FileNotFound")
  \/ (existsSync host p = true
      /\ String.eqb (JS.toLowerCase (extname host p)) ".pdf" = false
      /\ err = PDFKitError ("Invalid file type. Expected .pdf, got "
                            ++ JS.toLowerCase (extname host p)) "InvalidFileType")
  \/ (validPath host p = true
      /\ exists m, err = PDFKitError (prefix ++ m) tag
                   /\ (readFileSync host p = Raise m
                       \/ exists pdf, readFileSync host p = Ok pdf
                                      /\ pdfparse host pdf = Raise m)).
Proof.
  rewrite parse_method_run. unfold validPath.
  destruct (existsSync host p) eqn:Hex; simpl.
  - destruct (String.eqb (JS.toLowerCase (extname host p)) ".pdf") eqn:Hext; simpl.
    + destruct (readFileSync host p) as [pdf|m] eqn:Hread; simpl.
      * destruct (pdfparse host pdf) as [data|m] eqn:Hparse; [discriminate|].
        intros H. injection H as <-. right. right. split; [reflexivity|].
        exists m. split; [reflexivity|]. right. now exists pdf.
      * intros H. injection H as <-. right. right. split; [reflexivity|].
        exists m. split; [reflexivity | now left].
    + intros H. injection H as <-. right. left. auto.
  - intros H. injection H as <-. left. auto.
Qed.

(** The one way such a method returns. *)
Lemma parse_method_returns {A} (p prefix tag : string) (f : PdfData -> A) (a : A) :
  completion
    (tryCatch
       (bind (_validateFilePath host p) (fun _ =>
        bind (call (FsReadFileSync p) (readFileSync host p)) (fun pdf =>
        bind (call (PdfParse pdf) (pdfparse host pdf)) (fun data =>
        ret (f data)))))
       (rethrow prefix tag)) = Return a ->
  validPath host p = true
  /\ exists pdf data, readFileSync host p = Ok pdf
                      /\ pdfparse host pdf = Ok data /\ a = f data.
Proof.
  rewrite parse_method_run.
  destruct (validPath host p); simpl; [|discriminate].
  destruct (readFileSync host p) as [pdf|m]; simpl; [|discriminate].
  destruct (pdfparse host pdf) as [data|m] eqn:Hparse; [|discriminate].
  intros H. injection H as <-. split; [reflexivity|]. now exists pdf, data.
Qed.

Lemma intoarray_run (p : string) :
  intoarray host p
  = if validPath host p
    then match readFileSync host p with
         | Raise m => ([FsExistsSync p; FsReadFileSync p],
                       Throw (PDFKitError ("Failed to parse PDF: " ++ m) "ParseError"))
         | Ok pdf => ([FsExistsSync p; FsReadFileSync p; PdfParse pdf],
                      match pdfparse host pdf with
                      | Ok data => Return (JS.split JS.LF (text data))
                      | Raise m => Throw (PDFKitError ("Failed to parse PDF: " ++ m)
                                                      "ParseError")
                      end)
         end
    else ([FsExistsSync p],
          Throw (if existsSync host p
                 then PDFKitError ("Invalid file type. Expected .pdf, got "
                                   ++ JS.toLowerCase (extname host p))
                                  "InvalidFileType"
                 else PDFKitError ("File not found: " ++ p) "FileNotFound")).
Proof.
  exact (parse_method_run p "Failed to parse PDF: " "ParseError"
           (fun data => JS.split JS.LF (text data))).
Qed.

End ParseMethods.

Lemma split_count (s : string) :
  length (JS.split JS.LF s) = S (newlineCount s).
Proof.
  induction s as [|c rest IH]; simpl; [reflexivity|].
  destruct (Ascii.eqb c JS.LF); simpl; [now rewrite IH|].
  pose proof (split_not_nil JS.LF rest) as Hnil.
  destruct (JS.split JS.LF rest) as [|l ls]; [congruence|].
  simpl in *. exact IH.
Qed.

(** X1.  Every failure of [intoarray]: [FileNotFound] when the path does not
    exist, [InvalidFileType] when it exists under another extension, and
    otherwise [ParseError] carrying the message of the failed read or of the
    failed decoding after ["Failed to parse PDF: "]. *)
Theorem intoarray_failures
    {Page} (host : Host Page) (p : string) (err : JsError) :
  completion (intoarray host p) = Throw err ->
  (existsSync host p = false
   /\ err = PDFKitError ("File not found: " ++ p) "FileNotFound")
  \/ (existsSync host p = true
      /\ String.eqb (JS.toLowerCase (extname host p)) ".pdf" = false
      /\ err = PDFKitError ("Invalid file type. Expected .pdf, got "
                            ++ JS.toLowerCase (extname host p)) "InvalidFileType")
  \/ (validPath host p = true
      /\ exists m, err = PDFKitError ("Failed to parse PDF: " ++ m) "ParseError"
                   /\ (readFileSync host p = Raise m
                       \/ exists pdf, readFileSync host p = Ok pdf
                                      /\ pdfparse host pdf = Raise m)).
Proof. unfold intoarray. apply parse_method_failures. Qed.

Lemma intoarray_failures_witness :
  completion (intoarray Sample.host "/docs/broken.pdf")
  = Throw (PDFKitError "Failed to parse PDF: Invalid PDF structure" "ParseError")
  /\ validPath Sample.host "/docs/broken.pdf" = true.
Proof.
  split; [reflexivity|].
  destruct (intoarray_failures Sample.host "/docs/broken.pdf"
              (PDFKitError "Failed to parse PDF: Invalid PDF structure" "ParseError")
              eq_refl)
    as [[Hex _] | [(_ & _ & Herr) | [Hv _]]].
  - discriminate Hex.
  - discriminate Herr.
  - exact Hv.
Defined.

(** X2.  When [intoarray] returns, it returns one line more than the decoded
    text has newline characters. *)
Theorem intoarray_line_count
    {Page} (host : Host Page) (p : string) (pdf : Buffer) (data : PdfData)
    (lines : list string) :
  readFileSync host p = Ok pdf ->
  pdfparse host pdf = Ok data ->
  completion (intoarray host p) = Return lines ->
  length lines = S (newlineCount (text data)).
Proof.
  intros Hread Hparse H. unfold intoarray in H.
  apply parse_method_returns in H as (_ & pdf' & data' & Hread' & Hparse' & ->).
  rewrite Hread in Hread'. injection Hread' as <-.
  rewrite Hparse in Hparse'. injection Hparse' as <-.
  apply split_count.
Qed.

Lemma intoarray_line_count_witness :
  readFileSync Sample.host "/docs/report.pdf" = Ok Sample.reportBytes
  /\ newlineCount Sample.reportText = 4
  /\ length ["Foo one"; "foo two"; "bar"; "FOO three"; "a fOo"] = 5.
Proof.
  split; [reflexivity|]. split; [reflexivity|].
  apply (intoarray_line_count Sample.host "/docs/report.pdf" Sample.reportBytes
           {| text := Sample.reportText; numpages := 5 |});
    reflexivity.
Defined.

(** X3.  [getPageCount] returns [n] exactly when the path passes validation,
    the file is read, [pdf-parse] resolves, and [n] is the [numpages] it
    resolved with; the count is passed on as it is. *)
Theorem getPageCount_returns_numpages
    {Page} (host : Host Page) (p : string) (n : Z) :
  completion (getPageCount host p) = Return n
  <-> (validPath host p = true
       /\ exists pdf data, readFileSync host p = Ok pdf
                           /\ pdfparse host pdf = Ok data
                           /\ n = numpages data).
Proof.
  split.
  - unfold getPageCount. apply parse_method_returns.
  - intros (Hv & pdf & data & Hread & Hparse & ->).
    unfold getPageCount. rewrite parse_method_run, Hv, Hread. simpl.
    now rewrite Hparse.
Qed.

Example sample_page_count :
  getPageCount Sample.host "/docs/report.pdf"
  = ([FsExistsSync "/docs/report.pdf"; FsReadFileSync "/docs/report.pdf";
      PdfParse Sample.reportBytes], Return 5%Z).
Proof. reflexivity. Qed.

(** X4.  Every failure of [getPageCount]: [FileNotFound], [InvalidFileType],
    or [PageCountError] carrying the message of the failed read or decoding
    after ["Failed to get page count: "]. *)
Theorem getPageCount_failures
    {Page} (host : Host Page) (p : string) (err : JsError) :
  completion (getPageCount host p) = Throw err ->
  (existsSync host p = false
   /\ err = PDFKitError ("File not found: " ++ p) "FileNotFound")
  \/ (existsSync host p = true
      /\ String.eqb (JS.toLowerCase (extname host p)) ".pdf" = false
      /\ err = PDFKitError ("Invalid file type. Expected .pdf, got "
                            ++ JS.toLowerCase (extname host p)) "InvalidFileType")
  \/ (validPath host p = true
      /\ exists m, err = PDFKitError ("Failed to get page count: " ++ m)
                                     "PageCountError"
                   /\ (readFileSync host p = Raise m
                       \/ exists pdf, readFileSync host p = Ok pdf
                                      /\ pdfparse host pdf = Raise m)).
Proof. unfold getPageCount. apply parse_method_failures. Qed.

Lemma getPageCount_failures_witness :
  completion (getPageCount Sample.host "/docs/broken.pdf")
  = Throw (PDFKitError "Failed to get page count: Invalid PDF structure"
                       "PageCountError")
  /\ validPath Sample.host "/docs/broken.pdf" = true.
Proof.
  split; [reflexivity|].
  destruct (getPageCount_failures Sample.host "/docs/broken.pdf"
              (PDFKitError "Failed to get page count: Invalid PDF structure"
                           "PageCountError")
              eq_refl)
    as [[Hex _] | [(_ & _ & Herr) | [Hv _]]].
  - discriminate Hex.
  - discriminate Herr.
  - exact Hv.
Defined.

(** X5.  Every failure of [getMetadata]: [FileNotFound], [InvalidFileType],
    or [MetadataError] carrying the message of the failed read or decoding
    after ["Failed to get metadata: "]. *)
Theorem getMetadata_failures
    {Page} (host : Host Page) (p : string) (err : JsError) :
  completion (getMetadata host p) = Throw err ->
  (existsSync host p = false
   /\ err = PDFKitError ("File not found: " ++ p) "FileNotFound")
  \/ (existsSync host p = true
      /\ String.eqb (JS.toLowerCase (extname host p)) ".pdf" = false
      /\ err = PDFKitError ("Invalid file type. Expected .pdf, got "
                            ++ JS.toLowerCase (extname host p)) "InvalidFileType")
  \/ (validPath host p = true
      /\ exists m, err = PDFKitError ("Failed to get metadata: " ++ m)
                                     "MetadataError"
                   /\ (readFileSync host p = Raise m
                       \/ exists pdf, readFileSync host p = Ok pdf
                                      /\ pdfparse host pdf = Raise m)).
Proof. unfold getMetadata. apply parse_method_failures. Qed.

Lemma getMetadata_failures_witness :
  completion (getMetadata Sample.host "/docs/notes.txt")
  = Throw (PDFKitError "Invalid file type. Expected .pdf, got .txt" "InvalidFileType")
  /\ existsSync Sample.host "/docs/notes.txt" = true.
Proof.
  split; [reflexivity|].
  destruct (getMetadata_failures Sample.host "/docs/notes.txt"
              (PDFKitError "Invalid file type. Expected .pdf, got .txt"
                           "InvalidFileType")
              eq_refl)
    as [[_ Herr] | [(Hex & _) | (_ & m & Herr & _)]].
  - discriminate Herr.
  - exact Hex.
  - discriminate Herr.
Defined.

(** X6.  [intoarray], [getPageCount] and [getMetadata] return together: when
    [getMetadata] returns a record, [intoarray] returns its [totalText] split
    at the newlines and [getPageCount] returns its [totalPages]; and when
    either of the two returns, [getMetadata] returns a record that agrees
    with it. *)
Theorem parse_methods_agree {Page} (host : Host Page) (p : string) :
  (forall md,
     completion (getMetadata host p) = Return md ->
     completion (intoarray host p) = Return (JS.split JS.LF (totalText md))
     /\ completion (getPageCount host p) = Return (totalPages md))
  /\ (forall lines,
        completion (intoarray host p) = Return lines ->
        exists md, completion (getMetadata host p) = Return md
                   /\ lines = JS.split JS.LF (totalText md)
                   /\ JS.join newline lines = totalText md)
  /\ (forall n,
        completion (getPageCount host p) = Return n ->
        exists md, completion (getMetadata host p) = Return md
                   /\ totalPages md = n).
Proof.
  split; [|split].
  - intros md H. unfold getMetadata in H.
    apply parse_method_returns in H as (Hv & pdf & data & Hread & Hparse & ->).
    unfold intoarray, getPageCount. rewrite !parse_method_run, Hv, Hread. simpl.
    rewrite Hparse. split; reflexivity.
  - intros lines H. unfold intoarray in H.
    apply parse_method_returns in H as (Hv & pdf & data & Hread & Hparse & ->).
    eexists. unfold getMetadata. rewrite parse_method_run, Hv, Hread. simpl.
    rewrite Hparse. split; [reflexivity|]. simpl.
    split; [reflexivity | apply join_split].
  - intros n H. unfold getPageCount in H.
    apply parse_method_returns in H as (Hv & pdf & data & Hread & Hparse & ->).
    eexists. unfold getMetadata. rewrite parse_method_run, Hv, Hread. simpl.
    rewrite Hparse. split; reflexivity.
Qed.

Lemma parse_methods_agree_witness :
  completion (getMetadata Sample.host "/docs/abc.pdf")
  = Return {| totalPages := 1; totalText := text_a_b_c;
              textLength := 5; filename := "abc.pdf" |}
  /\ completion (intoarray Sample.host "/docs/abc.pdf") = Return ["a"; "b"; "c"]
  /\ completion (getPageCount Sample.host "/docs/abc.pdf") = Return 1%Z.
Proof.
  split; [reflexivity|].
  apply (proj1 (parse_methods_agree Sample.host "/docs/abc.pdf")
           {| totalPages := 1; totalText := text_a_b_c;
              textLength := 5; filename := "abc.pdf" |}).
  reflexivity.
Defined.

(** X7.  [convertToText] hands over the decoded text unchanged: when
    [getMetadata] returns a record for the path, [convertToText] without an
    output path returns its [totalText], and with a non-empty output path the
    string it writes there is that [totalText]. *)
Theorem convertToText_gives_decoded_text
    {Page} (host : Host Page) (p : string) (md : PdfMetadata) :
  completion (getMetadata host p) = Return md ->
  completion (convertToText host p None) = Return (totalText md)
  /\ forall out : string,
       out <> "" ->
       exists pdf,
         trace (convertToText host p (Some out))
         = [FsExistsSync p; FsExistsSync p; FsReadFileSync p; PdfParse pdf;
            FsWriteFileSync out (TextData (totalText md))].
Proof.
  intros H. unfold getMetadata in H.
  apply parse_method_returns in H as (Hv & pdf & data & Hread & Hparse & ->).
  pose proof (intoarray_ok host p pdf data Hv Hread Hparse) as Hrun.
  cbn [totalText]. split.
  - rewrite (convertToText_run host p None _ _ Hv Hrun).
    unfold newline. rewrite join_split. reflexivity.
  - intros out Hout. exists pdf.
    rewrite (convertToText_run host p (Some out) _ _ Hv Hrun).
    assert (Hgiven : given (Some out) = true)
      by (destruct out; [congruence | reflexivity]).
    rewrite Hgiven. unfold newline. rewrite join_split. reflexivity.
Qed.

Lemma convertToText_gives_decoded_text_witness :
  completion (getMetadata Sample.host "/docs/report.pdf")
  = Return {| totalPages := 5; totalText := Sample.reportText;
              textLength := 35; filename := "report.pdf" |}
  /\ completion (convertToText Sample.host "/docs/report.pdf" None)
     = Return Sample.reportText.
Proof.
  split; [reflexivity|].
  apply (convertToText_gives_decoded_text Sample.host "/docs/report.pdf"
           {| totalPages := 5; totalText := Sample.reportText;
              textLength := 35; filename := "report.pdf" |}).
  reflexivity.
Defined.

(** ** Nested calls of [intoarray] *)

Section Nested.

Context {Page : Type}.
Variable host : Host Page.

(** On a path that fails validation, [intoarray] throws the validation
    error. *)
Lemma intoarray_rejects (p m tag : string) :
  _validateFilePath host p = ([FsExistsSync p], Throw (PDFKitError m tag)) ->
  intoarray host p = ([FsExistsSync p], Throw (PDFKitError m tag)).
Proof. intros H. unfold intoarray. now apply guarded_rejects. Qed.

(** What [intoarray] throws leaves [convertToText] as it is. *)
Lemma convertToText_inner_throw (p : string) (out : option string)
      (t : list (Event Page)) (m tag : string) :
  validPath host p = true ->
  intoarray host p = (t, Throw (PDFKitError m tag)) ->
  convertToText host p out = (FsExistsSync p :: t, Throw (PDFKitError m tag)).
Proof.
  intros Hv Hrun. unfold convertToText.
  rewrite (validate_ok host p Hv), Hrun. unfold_run. simpl.
  now rewrite app_nil_r.
Qed.

(** If [searchText] returns, [intoarray] returned and the result is its
    lines, filtered. *)
Lemma searchText_returns (p term : string) (opts : Options) (found : list string) :
  completion (searchText host p term opts) = Return found ->
  opts <> OptionsNull /\ term <> "" /\
  exists lines,
    completion (intoarray host p) = Return lines
    /\ found = filter (searchFunc (caseSensitiveOf opts) term) lines.
Proof.
  intros H.
  destruct (validate_cases host p) as [[Hv _] | [_ (m & tag & Hval & _)]].
  - destruct (OptionsNull_dec opts) as [-> | Hopts].
    + rewrite (searchText_null_options host p term Hv) in H. discriminate.
    + destruct term as [|c term'].
      * rewrite (searchText_empty_term host p opts Hv Hopts) in H. discriminate.
      * destruct (intoarray host p) as [t [lines|err]] eqn:Hinto.
        -- rewrite (searchText_filters host p (String c term') opts t lines
                      Hv Hopts eq_refl Hinto) in H.
           injection H as <-.
           split; [exact Hopts|]. split; [discriminate|].
           now exists lines.
        -- assert (Hc : completion (intoarray host p) = Throw err)
             by now rewrite Hinto.
           destruct (intoarray_throws host p err Hc) as (m & tag & -> & _).
           rewrite (searchText_inner_throw host p (String c term') opts t m tag
                      Hv Hopts eq_refl Hinto) in H.
           discriminate.
  - assert (Hrun : searchText host p term opts
                   = ([FsExistsSync p], Throw (PDFKitError m tag)))
      by (unfold searchText; now apply guarded_rejects).
    rewrite Hrun in H. discriminate.
Qed.

End Nested.

(** X8.  Every failure of [convertToText] is either the failure of its
    nested [intoarray] call, thrown on unchanged (so a failed read or
    decoding shows as [ParseError]), or a failed write of the joined lines
    to a non-empty output path, which shows as [ConvertToTextError] with the
    message of the write after ["Failed to convert PDF to text: "]. *)
Theorem convertToText_failures
    {Page} (host : Host Page) (p : string) (outputPath : option string)
    (err : JsError) :
  completion (convertToText host p outputPath) = Throw err ->
  completion (intoarray host p) = Throw err
  \/ exists lines out m,
       completion (intoarray host p) = Return lines
       /\ outputPath = Some out /\ out <> ""
       /\ writeFileSync host out (TextData (JS.join newline lines)) = Raise m
       /\ err = PDFKitError ("Failed to convert PDF to text: " ++ m)
                            "ConvertToTextError".
Proof.
  intros H.
  destruct (validate_cases host p) as [[Hv _] | [_ (m & tag & Hval & _)]].
  - destruct (intoarray host p) as [t [lines|e]] eqn:Hinto.
    + right. rewrite (convertToText_run host p outputPath t lines Hv Hinto) in H.
      destruct outputPath as [[|c out]|]; simpl in H; try discriminate.
      destruct (writeFileSync host (String c out)
                  (TextData (JS.join newline lines))) as [u|m] eqn:Hw;
        [discriminate|].
      injection H as <-. exists lines, (String c out), m.
      repeat split; try reflexivity; try assumption. discriminate.
    + left.
      assert (Hc : completion (intoarray host p) = Throw e) by now rewrite Hinto.
      destruct (intoarray_throws host p e Hc) as (m & tag & -> & _).
      rewrite (convertToText_inner_throw host p outputPath t m tag Hv Hinto) in H.
      simpl in H. injection H as <-. reflexivity.
  - left. rewrite (intoarray_rejects host p m tag Hval).
    unfold convertToText in H.
    rewrite (guarded_rejects host p _ _ _ _ m tag Hval) in H.
    simpl in H. injection H as <-. reflexivity.
Qed.

Lemma convertToText_failures_witness :
  completion (convertToText Sample.host "/docs/abc.pdf" (Some "/readonly/abc.txt"))
  = Throw (PDFKitError
      "Failed to convert PDF to text: EACCES: permission denied, open '/readonly/abc.txt'"
      "ConvertToTextError")
  /\ completion (intoarray Sample.host "/docs/abc.pdf") = Return ["a"; "b"; "c"].
Proof.
  split; [reflexivity|].
  destruct (convertToText_failures Sample.host "/docs/abc.pdf"
              (Some "/readonly/abc.txt")
              (PDFKitError
                 "Failed to convert PDF to text: EACCES: permission denied, open '/readonly/abc.txt'"
                 "ConvertToTextError")
              eq_refl)
    as [Hinner | (lines & out & m & Hlines & _)].
  - discriminate Hinner.
  - reflexivity.
Defined.

(** X9.  An error thrown by the nested [intoarray] call is never wrapped a
    second time: [convertToText] throws it unchanged for any output path, and
    so does [searchText] when the term is not empty and [options] is
    [undefined] or an object. *)
Theorem nested_errors_pass_unchanged
    {Page} (host : Host Page) (p : string) (err : JsError) :
  completion (intoarray host p) = Throw err ->
  (forall outputPath,
     completion (convertToText host p outputPath) = Throw err)
  /\ (forall term opts,
        term <> "" -> opts <> OptionsNull ->
        completion (searchText host p term opts) = Throw err).
Proof.
  intros H.
  destruct (intoarray_throws host p err H) as (m & tag & -> & _).
  destruct (validate_cases host p) as [[Hv _] | [_ (m' & tag' & Hval & _)]].
  - destruct (intoarray host p) as [t c] eqn:Hinto. simpl in H. subst c.
    split.
    + intros out. now rewrite (convertToText_inner_throw host p out t m tag Hv Hinto).
    + intros term opts Hterm Hopts.
      assert (Htruthy : JS.truthy term = true)
        by (destruct term; [congruence | reflexivity]).
      now rewrite (searchText_inner_throw host p term opts t m tag
                     Hv Hopts Htruthy Hinto).
  - rewrite (intoarray_rejects host p m' tag' Hval) in H. injection H as <- <-.
    split.
    + intros out. unfold convertToText.
      now rewrite (guarded_rejects host p _ _ _ _ m' tag' Hval).
    + intros term opts _ _. unfold searchText.
      now rewrite (guarded_rejects host p _ _ _ _ m' tag' Hval).
Qed.

Lemma nested_errors_pass_unchanged_witness :
  completion (intoarray Sample.host "/docs/broken.pdf")
  = Throw (PDFKitError "Failed to parse PDF: Invalid PDF structure" "ParseError")
  /\ completion (convertToText Sample.host "/docs/broken.pdf" (Some "/out/b.txt"))
     = Throw (PDFKitError "Failed to parse PDF: Invalid PDF structure" "ParseError").
Proof.
  split; [reflexivity|].
  apply (proj1 (nested_errors_pass_unchanged Sample.host "/docs/broken.pdf"
                  (PDFKitError "Failed to parse PDF: Invalid PDF structure"
                               "ParseError")
                  eq_refl)).
Defined.

(** ** More on [searchText] *)

Lemma toLowerCase_app (a b : string) :
  JS.toLowerCase (a ++ b) = (JS.toLowerCase a ++ JS.toLowerCase b)%string.
Proof. induction a as [|c a IH]; simpl; [reflexivity | now rewrite IH]. Qed.

Lemma sensitive_match_is_insensitive_match (term line : string) :
  searchFunc true term line = true -> searchFunc false term line = true.
Proof.
  rewrite !searchFunc_contains. unfold contains, fold.
  intros (pre & post & ->).
  exists (JS.toLowerCase pre), (JS.toLowerCase post).
  now rewrite !toLowerCase_app.
Qed.

Lemma filter_Subsequence_impl {A} (f g : A -> bool) (l : list A) :
  (forall x, f x = true -> g x = true) ->
  Subsequence (filter f l) (filter g l).
Proof.
  intros Hfg. induction l as [|x l IH]; simpl; [constructor|].
  destruct (f x) eqn:Hf.
  - rewrite (Hfg x Hf). now constructor.
  - destruct (g x); [now constructor | exact IH].
Qed.

Lemma filter_none {A} (f : A -> bool) (l : list A) :
  (forall x, In x l -> f x = false) -> filter f l = [].
Proof.
  induction l as [|x l IH]; simpl; intros H; [reflexivity|].
  rewrite (H x (or_introl eq_refl)). apply IH. intros y Hy. apply H. now right.
Qed.

Lemma string_app_assoc (a b c : string) :
  ((a ++ b) ++ c = a ++ (b ++ c))%string.
Proof. induction a as [|x a IH]; simpl; [reflexivity | now rewrite IH]. Qed.

Lemma includes_trans (a b c : string) :
  JS.includes a b = true -> JS.includes b c = true -> JS.includes a c = true.
Proof.
  rewrite !includes_spec.
  intros (pre & post & ->) (pre' & post' & ->).
  exists (pre ++ pre')%string, (post' ++ post)%string.
  rewrite !string_app_assoc. reflexivity.
Qed.

Lemma lowerUnit_LF (c : ascii) :
  Ascii.eqb (JS.lowerUnit c) JS.LF = Ascii.eqb c JS.LF.
Proof. destruct c as [[] [] [] [] [] [] [] []]; reflexivity. Qed.

Lemma includes_newline_toLowerCase (s : string) :
  JS.includes (JS.toLowerCase s) newline = JS.includes s newline.
Proof.
  unfold newline. induction s as [|c s IH]; [reflexivity|].
  cbn [JS.toLowerCase JS.includes JS.startsWith].
  now rewrite lowerUnit_LF, IH.
Qed.

Lemma truthy_toLowerCase (s : string) :
  JS.truthy (JS.toLowerCase s) = JS.truthy s.
Proof. destruct s; reflexivity. Qed.

(** X10.  For strings of code units up to U+00FF: every line a case-sensitive
    search returns is returned by the case-insensitive search for the same
    term on the same file, in the same order. *)
Theorem sensitive_hits_within_insensitive
    {Page} (host : Host Page) (p term : string) (found : list string) :
  completion (searchText host p term (OptionsObject (Some true))) = Return found ->
  exists wider,
    completion (searchText host p term (OptionsObject (Some false))) = Return wider
    /\ Subsequence found wider.
Proof.
  intros H.
  destruct (searchText_returns host p term _ found H)
    as (_ & Hterm & lines & Hlines & ->).
  destruct (intoarray_returns host p lines Hlines)
    as (Hv & pdf & data & _ & _ & _ & Hrun).
  assert (Htruthy : JS.truthy term = true)
    by (destruct term; [congruence | reflexivity]).
  exists (filter (searchFunc false term) lines). split.
  - now rewrite (searchText_filters host p term (OptionsObject (Some false)) _ lines
                   Hv ltac:(discriminate) Htruthy Hrun).
  - apply filter_Subsequence_impl. apply sensitive_match_is_insensitive_match.
Qed.

Lemma sensitive_hits_within_insensitive_witness :
  completion (searchText Sample.host "/docs/report.pdf" "Foo" (OptionsObject (Some true)))
  = Return ["Foo one"]
  /\ exists wider,
       completion (searchText Sample.host "/docs/report.pdf" "Foo"
                     (OptionsObject (Some false))) = Return wider
       /\ Subsequence ["Foo one"] wider.
Proof.
  split; [reflexivity|].
  apply (sensitive_hits_within_insensitive Sample.host "/docs/report.pdf" "Foo").
  reflexivity.
Defined.

(** X11.  A search that is not case sensitive depends on the term only
    through its lower-cased form: two terms with the same lower-cased form
    make [searchText] run and end the same way. *)
Theorem insensitive_search_ignores_term_case
    {Page} (host : Host Page) (p term term' : string) (opts : Options) :
  caseSensitiveOf opts = false ->
  JS.toLowerCase term = JS.toLowerCase term' ->
  searchText host p term opts = searchText host p term' opts.
Proof.
  intros Hcs Hlow.
  assert (Htruthy : JS.truthy term = JS.truthy term')
    by (rewrite <- (truthy_toLowerCase term), Hlow; apply truthy_toLowerCase).
  assert (Hfilter : forall lines,
             filter (searchFunc false term) lines
             = filter (searchFunc false term') lines).
  { intros lines. apply filter_ext. intros line. unfold searchFunc.
    now rewrite Hlow. }
  unfold searchText. unfold_run.
  destruct (_validateFilePath host p) as [t [[]|e]]; simpl; [|reflexivity].
  destruct opts as [| |[[]|]]; simpl in *; try discriminate; try reflexivity;
    rewrite Htruthy; destruct (JS.truthy term'); simpl; try reflexivity;
    destruct (intoarray host p) as [t' [lines|e]]; simpl; try reflexivity;
    now rewrite Hfilter.
Qed.

Lemma insensitive_search_ignores_term_case_witness :
  caseSensitiveOf OptionsUndefined = false
  /\ JS.toLowerCase "FOO" = JS.toLowerCase "foo"
  /\ searchText Sample.host "/docs/report.pdf" "FOO" OptionsUndefined
     = searchText Sample.host "/docs/report.pdf" "foo" OptionsUndefined.
Proof.
  split; [reflexivity|]. split; [reflexivity|].
  apply (insensitive_search_ignores_term_case Sample.host "/docs/report.pdf"
           "FOO" "foo" OptionsUndefined); reflexivity.
Defined.

(** X12.  A term that contains a newline matches no line: whenever
    [searchText] returns for such a term, it returns the empty list, under
    either setting of [caseSensitive]. *)
Theorem multiline_term_finds_nothing
    {Page} (host : Host Page) (p term : string) (opts : Options)
    (found : list string) :
  JS.includes term newline = true ->
  completion (searchText host p term opts) = Return found ->
  found = [].
Proof.
  intros Hnl H.
  destruct (searchText_returns host p term opts found H)
    as (_ & _ & lines & Hlines & ->).
  destruct (intoarray_returns host p lines Hlines)
    as (_ & pdf & data & _ & _ & -> & _).
  apply filter_none. intros line Hin.
  pose proof (split_lines_no_sep JS.LF (text data) line Hin) as Hline.
  fold newline in Hline.
  destruct (searchFunc (caseSensitiveOf opts) term line) eqn:Hmatch;
    [|reflexivity].
  unfold searchFunc in Hmatch. destruct (caseSensitiveOf opts).
  - rewrite (includes_trans line term newline Hmatch Hnl) in Hline. discriminate.
  - rewrite <- includes_newline_toLowerCase in Hnl, Hline.
    rewrite (includes_trans _ _ newline Hmatch Hnl) in Hline. discriminate.
Qed.

Lemma multiline_term_finds_nothing_witness :
  JS.includes (String "o" (String JS.LF "b")) newline = true
  /\ completion (searchText Sample.host "/docs/report.pdf"
                   (String "o" (String JS.LF "b")) OptionsUndefined)
     = Return []
  /\ @nil string = [].
Proof.
  split; [reflexivity|]. split; [reflexivity|].
  apply (multiline_term_finds_nothing Sample.host "/docs/report.pdf"
           (String "o" (String JS.LF "b")) OptionsUndefined []);
    reflexivity.
Defined.

(** X13.  With [options] given as [null], [searchText] on a path that passes
    validation fails with [SearchError] whatever the term, the empty one
    included, and does so before any file is read. *)
Theorem null_options_is_a_SearchError
    {Page} (host : Host Page) (p term : string) :
  validPath host p = true ->
  thrownType (searchText host p term OptionsNull) = Some "SearchError"
  /\ trace (searchText host p term OptionsNull) = [FsExistsSync p]
  /\ untouched (searchText host p term OptionsNull) = true.
Proof.
  intros Hv. rewrite (searchText_null_options host p term Hv).
  repeat split.
Qed.

Lemma null_options_is_a_SearchError_witness :
  validPath Sample.host "/docs/report.pdf" = true
  /\ thrownType (searchText Sample.host "/docs/report.pdf" "" OptionsNull)
     = Some "SearchError".
Proof.
  split; [reflexivity|].
  apply (null_options_is_a_SearchError Sample.host "/docs/report.pdf" "").
  reflexivity.
Defined.

(** ** More on [extractPages] *)

Section ExtractMore.

Context {Page : Type}.

Lemma occurrences_app (kind : Event Page -> bool) (t t' : list (Event Page)) :
  occurrences kind (t ++ t') = occurrences kind t + occurrences kind t'.
Proof. unfold occurrences. now rewrite filter_app, length_app. Qed.

Lemma savedDocuments_app (t t' : list (Event Page)) :
  savedDocuments (t ++ t') = savedDocuments t ++ savedDocuments t'.
Proof. unfold savedDocuments. apply flat_map_app. Qed.

(** The loop only copies, adds and warns. *)
Lemma loopEvents_kinds (src : list Page) (pageNumbers : list JsNumber) (ev : Event Page) :
  In ev (loopEvents src pageNumbers) ->
  match ev with
  | PdfLibCopyPages _ | PdfLibAddPage _ | ConsoleWarn _ => True
  | _ => False
  end.
Proof.
  unfold loopEvents. rewrite in_flat_map. intros (n & _ & Hin).
  destruct (pageNumbered src n); simpl in Hin; intuition (subst; exact I).
Qed.

Lemma loopEvents_no_save (src : list Page) (pageNumbers : list JsNumber) :
  savedDocuments (loopEvents src pageNumbers) = [].
Proof.
  induction pageNumbers as [|n rest IH]; [reflexivity|].
  unfold loopEvents in *. cbn [flat_map]. rewrite savedDocuments_app, IH.
  destruct (pageNumbered src n); reflexivity.
Qed.

Lemma loopEvents_warnings (src : list Page) (pageNumbers : list JsNumber) :
  occurrences isWarn (loopEvents src pageNumbers)
  = length (filter (fun n => negb (inRange src n)) pageNumbers).
Proof.
  induction pageNumbers as [|n rest IH]; [reflexivity|].
  unfold loopEvents in *. cbn [flat_map filter]. rewrite occurrences_app, IH.
  destruct (inRange src n) eqn:E.
  - destruct (proj2 (pageNumbered_inRange src n) E) as [page ->]. reflexivity.
  - rewrite (pageNumbered_out src n E). reflexivity.
Qed.

Lemma filter_split_length {A} (f : A -> bool) (l : list A) :
  length (filter f l) + length (filter (fun x => negb (f x)) l) = length l.
Proof.
  induction l as [|x l IH]; simpl; [reflexivity|].
  destruct (f x); simpl; lia.
Qed.

Lemma requestedPages_from_source (src : list Page) (pageNumbers : list JsNumber)
      (page : Page) :
  In page (requestedPages src pageNumbers) -> In page src.
Proof.
  unfold requestedPages. rewrite in_flat_map. intros (n & _ & Hin).
  unfold pageNumbered in Hin.
  destruct (JS.integerValue n) as [z|]; [|contradiction].
  destruct ((1 <=? z) && (z <=? pageCount src))%Z; [|contradiction].
  destruct (nth_error src (Z.to_nat (z - 1))) as [pg|] eqn:Hnth; [|contradiction].
  destruct Hin as [<-|[]]. eapply nth_error_In. exact Hnth.
Qed.

(** Asking for the pages after [done], one by one, gives them back. *)
Lemma requestedPages_tail (done rest : list Page) :
  requestedPages (done ++ rest)
    (map (fun k => integer (Z.of_nat k)) (seq (S (length done)) (length rest)))
  = rest.
Proof.
  revert done. induction rest as [|page rest IH]; intros done; [reflexivity|].
  cbn [length seq map]. unfold requestedPages in *. cbn [flat_map].
  assert (Hpage : pageNumbered (done ++ page :: rest)
                    (integer (Z.of_nat (S (length done))))
                  = Some page).
  { unfold pageNumbered. rewrite integerValue_integer.
    assert (Hin : ((1 <=? Z.of_nat (S (length done)))
                   && (Z.of_nat (S (length done))
                       <=? pageCount (done ++ page :: rest)))%Z = true).
    { apply andb_true_iff. rewrite !Z.leb_le. unfold pageCount.
      rewrite length_app. simpl. lia. }
    rewrite Hin.
    replace (Z.to_nat (Z.of_nat (S (length done)) - 1)) with (length done) by lia.
    rewrite nth_error_app2 by lia. now rewrite Nat.sub_diag. }
  rewrite Hpage. simpl. f_equal.
  specialize (IH (done ++ [page])).
  rewrite <- app_assoc in IH. simpl in IH.
  rewrite length_app in IH. simpl in IH.
  replace (length done + 1) with (S (length done)) in IH by lia.
  exact IH.
Qed.

Lemma requestedPages_all (src : list Page) :
  requestedPages src (allPageNumbers (length src)) = src.
Proof. exact (requestedPages_tail [] src). Qed.

Lemma none_strays_allPageNumbers (src : list Page) (n : nat) :
  forallb (fun k => negb (strays src k)) (allPageNumbers n) = true.
Proof.
  unfold allPageNumbers. apply forallb_forall. intros k Hk.
  apply in_map_iff in Hk as (i & <- & _). now rewrite strays_integer.
Qed.

(** A straying number makes [copyPages] throw. *)
Lemma copyPages_strays (src : list Page) (n : JsNumber) :
  strays src n = true ->
  exists m, copyPages src n = ([PdfLibCopyPages n], Throw (Error m)).
Proof.
  unfold strays, copyPages, call. intros H.
  apply andb_true_iff in H as [_ H].
  destruct (JS.integerValue n); [discriminate|]. now eexists.
Qed.

(** The loop up to the first number that strays: it stops there, with the
    error of [copyPages]. *)
Lemma copyLoop_strays (src : list Page) (done : list JsNumber) (n : JsNumber)
      (rest : list JsNumber) (dest : list Page) (m : string) :
  forallb (fun k => negb (strays src k)) done = true ->
  strays src n = true ->
  copyPages src n = ([PdfLibCopyPages n], Throw (Error m)) ->
  copyLoop src (done ++ n :: rest) dest
  = (loopEvents src done ++ [PdfLibCopyPages n], Throw (Error m)).
Proof.
  revert dest. induction done as [|k done IH]; intros dest Hall Hn Hcopy.
  - cbn [app copyLoop]. fold (passesGuard src n).
    apply andb_true_iff in Hn as [Hguard _]. rewrite Hguard, Hcopy. reflexivity.
  - cbn [forallb] in Hall. apply andb_true_iff in Hall as [Hk Hdone].
    apply negb_true_iff in Hk.
    cbn [app copyLoop]. fold (passesGuard src k). rewrite (guard_inRange src k Hk).
    unfold loopEvents. cbn [flat_map]. fold (loopEvents src done).
    destruct (inRange src k) eqn:E.
    + destruct (proj2 (pageNumbered_inRange src k) E) as [page Hpage].
      rewrite Hpage, (copyPages_inRange src k page Hpage).
      unfold addPage. unfold_run. simpl.
      rewrite (IH _ Hdone Hn Hcopy). reflexivity.
    + rewrite (pageNumbered_out src k E). unfold_run. simpl.
      rewrite (IH _ Hdone Hn Hcopy). reflexivity.
Qed.

(** Either no number strays, or there is a first one that does. *)
Lemma first_stray (src : list Page) (pageNumbers : list JsNumber) :
  forallb (fun k => negb (strays src k)) pageNumbers = true
  \/ exists done n rest,
       pageNumbers = done ++ n :: rest
       /\ forallb (fun k => negb (strays src k)) done = true
       /\ strays src n = true.
Proof.
  induction pageNumbers as [|k l IH]; [now left|].
  destruct (strays src k) eqn:Hk.
  - right. exists [], k, l. auto.
  - destruct IH as [Hall | (done & n & rest & -> & Hdone & Hn)].
    + left. cbn [forallb]. now rewrite Hk, Hall.
    + right. exists (k :: done), n, rest. cbn [forallb]. rewrite Hk, Hdone. auto.
Qed.

Variable host : Host Page.

(** The run when the source cannot be read. *)
Lemma extractPages_read_fails (p out : string) (pageNumbers : list JsNumber) (m : string) :
  validPath host p = true ->
  out <> "" ->
  pageNumbers <> [] ->
  readFileSync host p = Raise m ->
  extractPages host p (Some out) (Some pageNumbers)
  = ([FsExistsSync p; FsReadFileSync p],
     Throw (PDFKitError ("Failed to extract pages: " ++ m) "ExtractPagesError")).
Proof.
  intros Hv Hout Hnums Hread.
  unfold extractPages. rewrite (validate_ok host p Hv).
  assert (Hgiven : given (Some out) = true)
    by (destruct out; [congruence | reflexivity]).
  assert (Hvalid : invalidPageNumbers (Some pageNumbers) = false)
    by (destruct pageNumbers; [congruence | reflexivity]).
  rewrite Hgiven, Hvalid. unfold_run. simpl. rewrite Hread. reflexivity.
Qed.

(** The run when the source is read and [pdf-lib] cannot load it. *)
Lemma extractPages_load_fails (p out : string) (pageNumbers : list JsNumber)
      (bytes : Buffer) (m : string) :
  validPath host p = true ->
  out <> "" ->
  pageNumbers <> [] ->
  readFileSync host p = Ok bytes ->
  load host bytes = Raise m ->
  extractPages host p (Some out) (Some pageNumbers)
  = ([FsExistsSync p; FsReadFileSync p; PdfLibLoad bytes],
     Throw (PDFKitError ("Failed to extract pages: " ++ m) "ExtractPagesError")).
Proof.
  intros Hv Hout Hnums Hread Hload.
  unfold extractPages. rewrite (validate_ok host p Hv).
  assert (Hgiven : given (Some out) = true)
    by (destruct out; [congruence | reflexivity]).
  assert (Hvalid : invalidPageNumbers (Some pageNumbers) = false)
    by (destruct pageNumbers; [congruence | reflexivity]).
  rewrite Hgiven, Hvalid. unfold_run. simpl. rewrite Hread, Hload. reflexivity.
Qed.

(** The run when a number strays: the loop stops at [copyPages], before
    [save]. *)
Lemma extractPages_stray (p out : string) (done : list JsNumber) (n : JsNumber)
      (rest : list JsNumber) (bytes : Buffer) (src : list Page) (m : string) :
  validPath host p = true ->
  out <> "" ->
  readFileSync host p = Ok bytes ->
  load host bytes = Ok src ->
  forallb (fun k => negb (strays src k)) done = true ->
  strays src n = true ->
  copyPages src n = ([PdfLibCopyPages n], Throw (Error m)) ->
  extractPages host p (Some out) (Some (done ++ n :: rest))
  = ([FsExistsSync p; FsReadFileSync p; PdfLibLoad bytes; PdfLibCreate]
     ++ loopEvents src done ++ [PdfLibCopyPages n],
     Throw (PDFKitError ("Failed to extract pages: " ++ m) "ExtractPagesError")).
Proof.
  intros Hv Hout Hread Hload Hdone Hn Hcopy.
  unfold extractPages. rewrite (validate_ok host p Hv).
  assert (Hgiven : given (Some out) = true)
    by (destruct out; [congruence | reflexivity]).
  assert (Hvalid : invalidPageNumbers (Some (done ++ n :: rest)) = false)
    by (destruct done; reflexivity).
  rewrite Hgiven, Hvalid. unfold_run. simpl.
  rewrite Hread, Hload, (copyLoop_strays src done n rest [] m Hdone Hn Hcopy).
  simpl. now rewrite app_nil_r.
Qed.

(** The run when an argument is rejected. *)
Lemma extractPages_bad_output (p : string) (out : option string)
      (pageNumbers : option (list JsNumber)) :
  validPath host p = true ->
  given out = false ->
  extractPages host p out pageNumbers
  = ([FsExistsSync p], Throw (PDFKitError "Invalid path provided" "InvalidOutputPath")).
Proof.
  intros Hv Hout. unfold extractPages.
  rewrite (validate_ok host p Hv), Hout. reflexivity.
Qed.

Lemma extractPages_bad_numbers (p : string) (out : option string)
      (pageNumbers : option (list JsNumber)) :
  validPath host p = true ->
  given out = true ->
  invalidPageNumbers pageNumbers = true ->
  extractPages host p out pageNumbers
  = ([FsExistsSync p],
     Throw (PDFKitError "Invalid page numbers provided" "InvalidPageNumbers")).
Proof.
  intros Hv Hout Hnums. unfold extractPages.
  rewrite (validate_ok host p Hv), Hout, Hnums. reflexivity.
Qed.

Lemma given_Some (out : option string) :
  given out = true -> exists o, out = Some o /\ o <> "".
Proof.
  destruct out as [[|c o]|]; simpl; try discriminate.
  intros _. eexists. split; [reflexivity | discriminate].
Qed.

Lemma validNumbers_Some (pageNumbers : option (list JsNumber)) :
  invalidPageNumbers pageNumbers = false ->
  exists l, pageNumbers = Some l /\ l <> [].
Proof.
  destruct pageNumbers as [[|n l]|]; simpl; try discriminate.
  intros _. eexists. split; [reflexivity | discriminate].
Qed.

End ExtractMore.

(** X14.  On a path that passes validation, [extractPages] checks its other
    arguments before it reads anything: a missing or empty output path gives
    [InvalidOutputPath], whatever the page numbers are; with an output path,
    page numbers that are not an array or are an empty array give
    [InvalidPageNumbers].  In both cases the existence check is the only
    outside call made. *)
Theorem extractPages_checks_arguments
    {Page} (host : Host Page) (p : string) (outputPath : option string)
    (pageNumbers : option (list JsNumber)) :
  validPath host p = true ->
  (given outputPath = false ->
     extractPages host p outputPath pageNumbers
     = ([FsExistsSync p],
        Throw (PDFKitError "Invalid path provided" "InvalidOutputPath")))
  /\ (given outputPath = true ->
      invalidPageNumbers pageNumbers = true ->
        extractPages host p outputPath pageNumbers
        = ([FsExistsSync p],
           Throw (PDFKitError "Invalid page numbers provided" "InvalidPageNumbers"))).
Proof.
  intros Hv. split.
  - now apply extractPages_bad_output.
  - now apply extractPages_bad_numbers.
Qed.

Lemma extractPages_checks_arguments_witness :
  validPath Sample.host "/docs/report.pdf" = true
  /\ thrownType (extractPages Sample.host "/docs/report.pdf" (Some "") (Some []))
     = Some "InvalidOutputPath"
  /\ thrownType (extractPages Sample.host "/docs/report.pdf" (Some "/out/x.pdf") (Some []))
     = Some "InvalidPageNumbers".
Proof.
  split; [reflexivity|].
  destruct (extractPages_checks_arguments Sample.host "/docs/report.pdf"
              (Some "") (Some []) eq_refl) as [Hout _].
  destruct (extractPages_checks_arguments Sample.host "/docs/report.pdf"
              (Some "/out/x.pdf") (Some []) eq_refl) as [_ Hnums].
  split.
  - now rewrite (Hout eq_refl).
  - now rewrite (Hnums eq_refl eq_refl).
Defined.



(** The trace of [extractPages] once the source is loaded and no number
    strays: the loop, the save, and the write if the save returned. *)
Lemma extractPages_trace
    {Page} (host : Host Page) (p out : string) (pageNumbers : list JsNumber)
    (bytes : Buffer) (src : list Page) :
  validPath host p = true ->
  out <> "" ->
  pageNumbers <> [] ->
  readFileSync host p = Ok bytes ->
  load host bytes = Ok src ->
  forallb (fun k => negb (strays src k)) pageNumbers = true ->
  exists tail,
    trace (extractPages host p (Some out) (Some pageNumbers))
    = [FsExistsSync p; FsReadFileSync p; PdfLibLoad bytes; PdfLibCreate]
      ++ loopEvents src pageNumbers
      ++ PdfLibSave (requestedPages src pageNumbers) :: tail
    /\ (tail = []
        \/ exists pdfBytes,
             save host (requestedPages src pageNumbers) = Ok pdfBytes
             /\ tail = [FsWriteFileSync out (BinaryData pdfBytes)]).
Proof.
  intros Hv Hout Hnums Hread Hload Hall.
  rewrite (extractPages_run host p out pageNumbers bytes src
             Hv Hout Hnums Hread Hload Hall).
  destruct (save host (requestedPages src pageNumbers)) as [pdfBytes|m].
  - eexists. split; [reflexivity|]. right. now exists pdfBytes.
  - eexists. split; [reflexivity|]. now left.
Qed.

(** X16.  Whatever [extractPages] writes is the serialisation of the
    requested pages, written to the output path it was given: a write occurs
    only after the source was read and loaded and [save] returned, so nothing
    is written when validation, an argument check, the read, the load or the
    save fails. *)
Theorem extractPages_writes_only_saved_pages
    {Page} (host : Host Page) (p : string) (outputPath : option string)
    (pageNumbers : option (list JsNumber)) (ev : Event Page) :
  In ev (trace (extractPages host p outputPath pageNumbers)) ->
  isWrite ev = true ->
  exists out numbers bytes src pdfBytes,
    outputPath = Some out /\ pageNumbers = Some numbers
    /\ readFileSync host p = Ok bytes
    /\ load host bytes = Ok src
    /\ save host (requestedPages src numbers) = Ok pdfBytes
    /\ ev = FsWriteFileSync out (BinaryData pdfBytes).
Proof.
  intros Hin Hw.
  destruct (validate_cases host p) as [[Hv _] | [_ (m & tag & Hval & _)]].
  - destruct (given outputPath) eqn:Hout.
    + destruct (invalidPageNumbers pageNumbers) eqn:Hnums.
      * rewrite (extractPages_bad_numbers host p _ _ Hv Hout Hnums) in Hin.
        destruct Hin as [<-|[]]. discriminate.
      * destruct (given_Some outputPath Hout) as (out & -> & Hne).
        destruct (validNumbers_Some pageNumbers Hnums) as (numbers & -> & Hnn).
        destruct (readFileSync host p) as [bytes|m] eqn:Hread.
        -- destruct (load host bytes) as [src|m] eqn:Hload.
           ++ destruct (first_stray src numbers)
                as [Hall | (done & n & rest & -> & Hdone & Hn)].
              ** destruct (extractPages_trace host p out numbers bytes src
                             Hv Hne Hnn Hread Hload Hall) as (tail & Htrace & Htail).
                 rewrite Htrace in Hin.
                 apply in_app_or in Hin as [Hin | Hin].
                 { simpl in Hin. repeat destruct Hin as [<-|Hin]; try discriminate.
                   contradiction. }
                 apply in_app_or in Hin as [Hin | Hin].
                 { apply loopEvents_kinds in Hin. destruct ev; try contradiction;
                     discriminate. }
                 destruct Hin as [<-|Hin]; [discriminate|].
                 destruct Htail as [-> | (pdfBytes & Hsave & ->)]; [contradiction|].
                 destruct Hin as [<-|[]].
                 exists out, numbers, bytes, src, pdfBytes. auto 7.
              ** destruct (copyPages_strays src n Hn) as [m Hcopy].
                 rewrite (extractPages_stray host p out done n rest bytes src m
                            Hv Hne Hread Hload Hdone Hn Hcopy) in Hin.
                 apply in_app_or in Hin as [Hin | Hin].
                 { simpl in Hin. repeat destruct Hin as [<-|Hin]; try discriminate.
                   contradiction. }
                 apply in_app_or in Hin as [Hin | Hin].
                 { apply loopEvents_kinds in Hin. destruct ev; try contradiction;
                     discriminate. }
                 destruct Hin as [<-|[]]. discriminate.
           ++ rewrite (extractPages_load_fails host p out numbers bytes m
                         Hv Hne Hnn Hread Hload) in Hin.
              simpl in Hin. repeat destruct Hin as [<-|Hin]; try discriminate.
              contradiction.
        -- rewrite (extractPages_read_fails host p out numbers m Hv Hne Hnn Hread) in Hin.
           simpl in Hin. repeat destruct Hin as [<-|Hin]; try discriminate.
           contradiction.
    + rewrite (extractPages_bad_output host p _ _ Hv Hout) in Hin.
      destruct Hin as [<-|[]]. discriminate.
  - unfold extractPages in Hin.
    rewrite (guarded_rejects host p _ _ _ _ m tag Hval) in Hin.
    destruct Hin as [<-|[]]. discriminate.
Qed.

Lemma extractPages_writes_only_saved_pages_witness :
  In (FsWriteFileSync "/out/x.pdf" (BinaryData [Byte.x02; Byte.x05; Byte.x02]))
     (trace (extractPages Sample.host "/docs/report.pdf" (Some "/out/x.pdf")
               (Some (integers [2; 5; 2]%Z))))
  /\ exists out numbers bytes src pdfBytes,
       Some "/out/x.pdf" = Some out /\ Some (integers [2; 5; 2]%Z) = Some numbers
       /\ readFileSync Sample.host "/docs/report.pdf" = Ok bytes
       /\ load Sample.host bytes = Ok src
       /\ save Sample.host (requestedPages src numbers) = Ok pdfBytes
       /\ @FsWriteFileSync Byte.byte "/out/x.pdf"
            (BinaryData [Byte.x02; Byte.x05; Byte.x02])
          = FsWriteFileSync out (BinaryData pdfBytes).
Proof.
  assert (Hin : In (FsWriteFileSync "/out/x.pdf"
                      (BinaryData [Byte.x02; Byte.x05; Byte.x02]))
                   (trace (extractPages Sample.host "/docs/report.pdf"
                             (Some "/out/x.pdf") (Some (integers [2; 5; 2]%Z)))))
    by (vm_compute; tauto).
  split; [exact Hin|].
  exact (extractPages_writes_only_saved_pages Sample.host "/docs/report.pdf"
           (Some "/out/x.pdf") (Some (integers [2; 5; 2]%Z)) _ Hin eq_refl).
Defined.

(** X17.  Asking for the pages [1, 2, ..., n] of a source of [n >= 1] pages
    hands [save] a document equal to the source, page for page, and warns
    about nothing. *)
Theorem extractPages_all_pages_copies_source
    {Page} (host : Host Page) (p out : string) (bytes : Buffer) (src : list Page) :
  validPath host p = true ->
  out <> "" ->
  src <> [] ->
  readFileSync host p = Ok bytes ->
  load host bytes = Ok src ->
  savedDocuments
    (trace (extractPages host p (Some out) (Some (allPageNumbers (length src)))))
  = [src]
  /\ occurrences isWarn
       (trace (extractPages host p (Some out) (Some (allPageNumbers (length src)))))
     = 0.
Proof.
  intros Hv Hout Hsrc Hread Hload.
  assert (Hnums : allPageNumbers (length src) <> [])
    by (destruct src; [congruence | discriminate]).
  destruct (extractPages_trace host p out _ bytes src Hv Hout Hnums Hread Hload
              (none_strays_allPageNumbers src (length src)))
    as (tail & -> & Htail).
  rewrite requestedPages_all. split.
  - rewrite !savedDocuments_app, loopEvents_no_save.
    destruct Htail as [-> | (pdfBytes & _ & ->)]; reflexivity.
  - rewrite !occurrences_app, loopEvents_warnings.
    assert (Hall : filter (fun n => negb (inRange src n)) (allPageNumbers (length src))
                   = []).
    { apply filter_none. intros n Hn. apply negb_false_iff.
      unfold allPageNumbers in Hn. apply in_map_iff in Hn as (k & <- & Hk).
      apply in_seq in Hk. apply inRange_iff. unfold pageCount. lia. }
    rewrite Hall.
    destruct Htail as [-> | (pdfBytes & _ & ->)]; reflexivity.
Qed.

Lemma extractPages_all_pages_copies_source_witness :
  validPath Sample.host "/docs/report.pdf" = true
  /\ allPageNumbers 5 = integers [1; 2; 3; 4; 5]%Z
  /\ savedDocuments
       (trace (extractPages Sample.host "/docs/report.pdf" (Some "/out/x.pdf")
                 (Some (allPageNumbers (length Sample.reportBytes)))))
     = [Sample.reportBytes].
Proof.
  split; [reflexivity|]. split; [reflexivity|].
  apply (extractPages_all_pages_copies_source Sample.host "/docs/report.pdf"
           "/out/x.pdf" Sample.reportBytes Sample.reportBytes);
    first [reflexivity | discriminate].
Defined.

(** X18.  Once the source is loaded, and provided no requested number passes
    the guard without being an integer, every requested number is accounted
    for: [save] is called once, on a document made of pages of the source,
    and the number of its pages plus the number of warnings is the number of
    page numbers requested; the warnings are as many as the numbers that are
    not an integer of [1 .. pageCount]. *)
Theorem extractPages_accounts_for_every_number
    {Page} (host : Host Page) (p out : string) (pageNumbers : list JsNumber)
    (bytes : Buffer) (src : list Page) :
  validPath host p = true ->
  out <> "" ->
  pageNumbers <> [] ->
  readFileSync host p = Ok bytes ->
  load host bytes = Ok src ->
  forallb (fun n => negb (strays src n)) pageNumbers = true ->
  exists dest,
    savedDocuments (trace (extractPages host p (Some out) (Some pageNumbers)))
    = [dest]
    /\ length dest
       + occurrences isWarn (trace (extractPages host p (Some out) (Some pageNumbers)))
       = length pageNumbers
    /\ occurrences isWarn (trace (extractPages host p (Some out) (Some pageNumbers)))
       = length (filter (fun n => negb (inRange src n)) pageNumbers)
    /\ (forall page, In page dest -> In page src).
Proof.
  intros Hv Hout Hnums Hread Hload Hall.
  destruct (extractPages_trace host p out pageNumbers bytes src
              Hv Hout Hnums Hread Hload Hall) as (tail & -> & Htail).
  exists (requestedPages src pageNumbers).
  assert (Hwarn : occurrences isWarn
                    ([FsExistsSync p; FsReadFileSync p; PdfLibLoad bytes; PdfLibCreate]
                     ++ loopEvents src pageNumbers
                     ++ PdfLibSave (requestedPages src pageNumbers) :: tail)
                  = length (filter (fun n => negb (inRange src n)) pageNumbers)).
  { rewrite !occurrences_app, loopEvents_warnings.
    generalize (length (filter (fun n => negb (inRange src n)) pageNumbers)).
    intros skipped.
    destruct Htail as [-> | (pdfBytes & _ & ->)]; unfold occurrences; simpl; lia. }
  split; [|split; [|split]].
  - rewrite !savedDocuments_app, loopEvents_no_save.
    destruct Htail as [-> | (pdfBytes & _ & ->)]; reflexivity.
  - rewrite Hwarn, requestedPages_length. apply filter_split_length.
  - exact Hwarn.
  - apply requestedPages_from_source.
Qed.

Lemma extractPages_accounts_for_every_number_witness :
  validPath Sample.host "/docs/report.pdf" = true
  /\ forallb (fun n => negb (strays Sample.reportBytes n))
       [integer 2; integer 0; NaN; integer 5; Finite (13 # 2); integer 2] = true
  /\ exists dest,
       savedDocuments (trace (extractPages Sample.host "/docs/report.pdf"
                                (Some "/out/x.pdf")
                                (Some [integer 2; integer 0; NaN; integer 5;
                                       Finite (13 # 2); integer 2])))
       = [dest]
       /\ length dest
          + occurrences isWarn
              (trace (extractPages Sample.host "/docs/report.pdf"
                        (Some "/out/x.pdf")
                        (Some [integer 2; integer 0; NaN; integer 5;
                               Finite (13 # 2); integer 2])))
          = 6.
Proof.
  split; [reflexivity|]. split; [reflexivity|].
  destruct (extractPages_accounts_for_every_number Sample.host "/docs/report.pdf"
              "/out/x.pdf"
              [integer 2; integer 0; NaN; integer 5; Finite (13 # 2); integer 2]
              Sample.reportBytes Sample.reportBytes
              eq_refl ltac:(discriminate) ltac:(discriminate) eq_refl eq_refl eq_refl)
    as (dest & Hsaved & Hcount & _).
  exists dest. split; [exact Hsaved | exact Hcount].
Defined.

(** ** The shape of every trace *)

Section Traces.

Context {Page : Type}.
Variable host : Host Page.

Lemma parse_method_trace {A} (p prefix tag : string) (f : PdfData -> A) :
  let t := trace
    (tryCatch
       (bind (_validateFilePath host p) (fun _ =>
        bind (call (FsReadFileSync p) (readFileSync host p)) (fun pdf =>
        bind (call (PdfParse pdf) (pdfparse host pdf)) (fun data =>
        ret (f data)))))
       (rethrow prefix tag)) in
  t = [FsExistsSync p] \/ t = [FsExistsSync p; FsReadFileSync p]
  \/ exists pdf, t = [FsExistsSync p; FsReadFileSync p; PdfParse pdf].
Proof.
  cbv zeta. rewrite parse_method_run.
  destruct (validPath host p); [|now left].
  destruct (readFileSync host p) as [pdf|m]; [|right; now left].
  right. right. now exists pdf.
Qed.

Lemma intoarray_trace (p : string) :
  trace (intoarray host p) = [FsExistsSync p]
  \/ trace (intoarray host p) = [FsExistsSync p; FsReadFileSync p]
  \/ exists pdf, trace (intoarray host p)
                 = [FsExistsSync p; FsReadFileSync p; PdfParse pdf].
Proof. unfold intoarray. apply parse_method_trace. Qed.

Lemma getPageCount_trace (p : string) :
  trace (getPageCount host p) = [FsExistsSync p]
  \/ trace (getPageCount host p) = [FsExistsSync p; FsReadFileSync p]
  \/ exists pdf, trace (getPageCount host p)
                 = [FsExistsSync p; FsReadFileSync p; PdfParse pdf].
Proof. unfold getPageCount. apply parse_method_trace. Qed.

Lemma getMetadata_trace (p : string) :
  trace (getMetadata host p) = [FsExistsSync p]
  \/ trace (getMetadata host p) = [FsExistsSync p; FsReadFileSync p]
  \/ exists pdf, trace (getMetadata host p)
                 = [FsExistsSync p; FsReadFileSync p; PdfParse pdf].
Proof. unfold getMetadata. apply parse_method_trace. Qed.

(** [searchText] stops after its own existence check, or goes on with the
    trace of [intoarray]. *)
Lemma searchText_trace (p term : string) (opts : Options) :
  trace (searchText host p term opts) = [FsExistsSync p]
  \/ trace (searchText host p term opts)
     = FsExistsSync p :: trace (intoarray host p).
Proof.
  destruct (validate_cases host p) as [[Hv _] | [_ (m & tag & Hval & _)]].
  - destruct (OptionsNull_dec opts) as [-> | Hopts].
    + left. now rewrite (searchText_null_options host p term Hv).
    + destruct term as [|c term'].
      * left. now rewrite (searchText_empty_term host p opts Hv Hopts).
      * right. destruct (intoarray host p) as [t [lines|err]] eqn:Hinto.
        -- now rewrite (searchText_filters host p (String c term') opts t lines
                          Hv Hopts eq_refl Hinto).
        -- assert (Hc : completion (intoarray host p) = Throw err)
             by now rewrite Hinto.
           destruct (intoarray_throws host p err Hc) as (m & tag & -> & _).
           now rewrite (searchText_inner_throw host p (String c term') opts t m tag
                          Hv Hopts eq_refl Hinto).
  - left. unfold searchText.
    now rewrite (guarded_rejects host p _ _ _ _ m tag Hval).
Qed.

(** [convertToText] likewise, with one write at the end when an output path
    is given and [intoarray] returned. *)
Lemma convertToText_trace (p : string) (out : option string) :
  trace (convertToText host p out) = [FsExistsSync p]
  \/ trace (convertToText host p out)
     = FsExistsSync p :: trace (intoarray host p)
  \/ (given out = true
      /\ exists o data,
           trace (convertToText host p out)
           = FsExistsSync p :: trace (intoarray host p)
             ++ [FsWriteFileSync o data]).
Proof.
  destruct (validate_cases host p) as [[Hv _] | [_ (m & tag & Hval & _)]].
  - right. destruct (intoarray host p) as [t [lines|err]] eqn:Hinto.
    + rewrite (convertToText_run host p out t lines Hv Hinto).
      destruct (given out) eqn:Hout.
      * right. split; [reflexivity|]. eexists _, _. reflexivity.
      * now left.
    + left.
      assert (Hc : completion (intoarray host p) = Throw err)
        by now rewrite Hinto.
      destruct (intoarray_throws host p err Hc) as (m & tag & -> & _).
      now rewrite (convertToText_inner_throw host p out t m tag Hv Hinto).
  - left. unfold convertToText.
    now rewrite (guarded_rejects host p _ _ _ _ m tag Hval).
Qed.

(** [extractPages]: stopped at the checks, at the read or at the load, or
    run through the loop to the save and, possibly, the write, or stopped in
    the loop at [copyPages]. *)
Lemma extractPages_trace_cases (p : string) (out : option string)
      (pageNumbers : option (list JsNumber)) :
  trace (extractPages host p out pageNumbers) = [FsExistsSync p]
  \/ trace (extractPages host p out pageNumbers)
     = [FsExistsSync p; FsReadFileSync p]
  \/ (exists bytes,
        trace (extractPages host p out pageNumbers)
        = [FsExistsSync p; FsReadFileSync p; PdfLibLoad bytes])
  \/ (exists bytes src numbers tail,
        trace (extractPages host p out pageNumbers)
        = [FsExistsSync p; FsReadFileSync p; PdfLibLoad bytes; PdfLibCreate]
          ++ loopEvents src numbers
          ++ PdfLibSave (requestedPages src numbers) :: tail
        /\ (tail = [] \/ exists o data, tail = [FsWriteFileSync o data]))
  \/ (exists bytes src done n,
        trace (extractPages host p out pageNumbers)
        = [FsExistsSync p; FsReadFileSync p; PdfLibLoad bytes; PdfLibCreate]
          ++ loopEvents src done ++ [PdfLibCopyPages n]).
Proof.
  destruct (validate_cases host p) as [[Hv _] | [_ (m & tag & Hval & _)]].
  - destruct (given out) eqn:Hout.
    + destruct (invalidPageNumbers pageNumbers) eqn:Hnums.
      * left. now rewrite (extractPages_bad_numbers host p _ _ Hv Hout Hnums).
      * destruct (given_Some out Hout) as (o & -> & Hne).
        destruct (validNumbers_Some pageNumbers Hnums) as (numbers & -> & Hnn).
        destruct (readFileSync host p) as [bytes|m] eqn:Hread.
        -- destruct (load host bytes) as [src|m] eqn:Hload.
           ++ right. right. right.
              destruct (first_stray src numbers)
                as [Hall | (done & n & rest & -> & Hdone & Hn)].
              ** left.
                 destruct (extractPages_trace host p o numbers bytes src
                             Hv Hne Hnn Hread Hload Hall) as (tail & Htrace & Htail).
                 exists bytes, src, numbers, tail. split; [exact Htrace|].
                 destruct Htail as [-> | (pdfBytes & _ & ->)]; [now left|].
                 right. eexists _, _. reflexivity.
              ** right. destruct (copyPages_strays src n Hn) as [m Hcopy].
                 exists bytes, src, done, n.
                 now rewrite (extractPages_stray host p o done n rest bytes src m
                                Hv Hne Hread Hload Hdone Hn Hcopy).
           ++ right. right. left. exists bytes.
              now rewrite (extractPages_load_fails host p o numbers bytes m
                             Hv Hne Hnn Hread Hload).
        -- right. left.
           now rewrite (extractPages_read_fails host p o numbers m Hv Hne Hnn Hread).
    + left. now rewrite (extractPages_bad_output host p _ _ Hv Hout).
  - left. unfold extractPages.
    now rewrite (guarded_rejects host p _ _ _ _ m tag Hval).
Qed.

(** A kind of event the loop never produces does not occur in its trace. *)
Lemma loopEvents_without (kind : Event Page -> bool) (src : list Page)
      (pageNumbers : list JsNumber) :
  (forall i, kind (PdfLibCopyPages i) = false) ->
  (forall page, kind (PdfLibAddPage page) = false) ->
  (forall msg, kind (ConsoleWarn msg) = false) ->
  occurrences kind (loopEvents src pageNumbers) = 0.
Proof.
  intros Hcopy Hadd Hwarn. unfold occurrences.
  rewrite filter_none; [reflexivity|].
  intros ev Hin. apply loopEvents_kinds in Hin.
  destruct ev; try contradiction; auto.
Qed.

End Traces.

Section Counting.

Context {Page : Type}.
Variable host : Host Page.

Lemma intoarray_frugal (p : string) : frugal (intoarray host p).
Proof.
  unfold frugal.
  destruct (intoarray_trace host p) as [-> | [-> | [pdf ->]]];
    repeat split; count_events.
Qed.

Lemma getPageCount_frugal (p : string) : frugal (getPageCount host p).
Proof.
  unfold frugal.
  destruct (getPageCount_trace host p) as [-> | [-> | [pdf ->]]];
    repeat split; count_events.
Qed.

Lemma getMetadata_frugal (p : string) : frugal (getMetadata host p).
Proof.
  unfold frugal.
  destruct (getMetadata_trace host p) as [-> | [-> | [pdf ->]]];
    repeat split; count_events.
Qed.

Lemma searchText_frugal (p term : string) (opts : Options) :
  frugal (searchText host p term opts).
Proof.
  unfold frugal.
  destruct (searchText_trace host p term opts) as [-> | ->];
    [repeat split; count_events|].
  destruct (intoarray_trace host p) as [-> | [-> | [pdf ->]]];
    repeat split; count_events.
Qed.

Lemma convertToText_frugal (p : string) (out : option string) :
  frugal (convertToText host p out).
Proof.
  unfold frugal.
  destruct (convertToText_trace host p out) as [-> | [-> | (_ & o & data & ->)]];
    [repeat split; count_events | |];
    destruct (intoarray_trace host p) as [-> | [-> | [pdf ->]]];
    repeat split; count_events.
Qed.

Lemma extractPages_frugal (p : string) (out : option string)
      (pageNumbers : option (list JsNumber)) :
  frugal (extractPages host p out pageNumbers).
Proof.
  unfold frugal.
  destruct (extractPages_trace_cases host p out pageNumbers)
    as [-> | [-> | [[bytes ->] | [(bytes & src & numbers & tail & -> & Htail)
                                 | (bytes & src & done & n & ->)]]]];
    try (repeat split; count_events).
  - rewrite !occurrences_app, !loopEvents_without by reflexivity.
    destruct Htail as [-> | (o & data & ->)]; repeat split; count_events.
  - rewrite !occurrences_app, !loopEvents_without by reflexivity.
    repeat split; count_events.
Qed.

End Counting.

(** X19.  Every call of every method is frugal with the outside world: for
    all arguments and all answers of the collaborators it reads at most one
    file, calls [pdf-parse] at most once, writes at most once, and checks the
    existence of the path at most twice. *)
Theorem every_call_is_frugal
    {Page} (host : Host Page) (p term : string) (opts : Options)
    (out : option string) (pageNumbers : option (list JsNumber)) :
  frugal (intoarray host p)
  /\ frugal (getPageCount host p)
  /\ frugal (searchText host p term opts)
  /\ frugal (extractPages host p out pageNumbers)
  /\ frugal (getMetadata host p)
  /\ frugal (convertToText host p out).
Proof.
  repeat split;
    first [ apply intoarray_frugal | apply getPageCount_frugal
          | apply searchText_frugal | apply extractPages_frugal
          | apply getMetadata_frugal | apply convertToText_frugal ].
Qed.

(** X20.  The methods that only answer questions leave the file system as it
    is: [intoarray], [getPageCount], [getMetadata] and [searchText] never
    write, whatever their arguments, and neither does [convertToText] when
    its output path is missing or empty. *)
Theorem query_methods_never_write
    {Page} (host : Host Page) (p term : string) (opts : Options)
    (out : option string) :
  occurrences isWrite (trace (intoarray host p)) = 0
  /\ occurrences isWrite (trace (getPageCount host p)) = 0
  /\ occurrences isWrite (trace (getMetadata host p)) = 0
  /\ occurrences isWrite (trace (searchText host p term opts)) = 0
  /\ (given out = false ->
      occurrences isWrite (trace (convertToText host p out)) = 0).
Proof.
  split; [|split; [|split; [|split]]].
  - destruct (intoarray_trace host p) as [-> | [-> | [pdf ->]]]; reflexivity.
  - destruct (getPageCount_trace host p) as [-> | [-> | [pdf ->]]]; reflexivity.
  - destruct (getMetadata_trace host p) as [-> | [-> | [pdf ->]]]; reflexivity.
  - destruct (searchText_trace host p term opts) as [-> | ->]; [reflexivity|].
    destruct (intoarray_trace host p) as [-> | [-> | [pdf ->]]]; reflexivity.
  - intros Hout.
    destruct (convertToText_trace host p out) as [-> | [-> | (Hgiven & _)]];
      [reflexivity | | congruence].
    destruct (intoarray_trace host p) as [-> | [-> | [pdf ->]]]; reflexivity.
Qed.

Lemma query_methods_never_write_witness :
  given (Some "") = false
  /\ occurrences isWrite (trace (convertToText Sample.host "/docs/report.pdf" (Some "")))
     = 0.
Proof.
  split; [reflexivity|].
  apply (query_methods_never_write Sample.host "/docs/report.pdf" "x"
           OptionsUndefined (Some "")).
  reflexivity.
Defined.

(** X21.  The two libraries are kept apart: the five text methods never call
    [pdf-lib], and [extractPages] never calls [pdf-parse]; [console.warn] is
    used by [extractPages] only. *)
Theorem delegates_are_kept_apart
    {Page} (host : Host Page) (p term : string) (opts : Options)
    (out : option string) (pageNumbers : option (list JsNumber)) :
  (forall kind : Event Page -> bool,
     kind = isPdfLib \/ kind = isWarn ->
     occurrences kind (trace (intoarray host p)) = 0
     /\ occurrences kind (trace (getPageCount host p)) = 0
     /\ occurrences kind (trace (getMetadata host p)) = 0
     /\ occurrences kind (trace (searchText host p term opts)) = 0
     /\ occurrences kind (trace (convertToText host p out)) = 0)
  /\ occurrences isParse (trace (extractPages host p out pageNumbers)) = 0.
Proof.
  split.
  - intros kind [-> | ->].
    + split; [|split; [|split; [|split]]].
      * destruct (intoarray_trace host p) as [-> | [-> | [pdf ->]]]; reflexivity.
      * destruct (getPageCount_trace host p) as [-> | [-> | [pdf ->]]]; reflexivity.
      * destruct (getMetadata_trace host p) as [-> | [-> | [pdf ->]]]; reflexivity.
      * destruct (searchText_trace host p term opts) as [-> | ->]; [reflexivity|].
        destruct (intoarray_trace host p) as [-> | [-> | [pdf ->]]]; reflexivity.
      * destruct (convertToText_trace host p out)
          as [-> | [-> | (_ & o & data & ->)]]; [reflexivity | |];
          destruct (intoarray_trace host p) as [-> | [-> | [pdf ->]]]; reflexivity.
    + split; [|split; [|split; [|split]]].
      * destruct (intoarray_trace host p) as [-> | [-> | [pdf ->]]]; reflexivity.
      * destruct (getPageCount_trace host p) as [-> | [-> | [pdf ->]]]; reflexivity.
      * destruct (getMetadata_trace host p) as [-> | [-> | [pdf ->]]]; reflexivity.
      * destruct (searchText_trace host p term opts) as [-> | ->]; [reflexivity|].
        destruct (intoarray_trace host p) as [-> | [-> | [pdf ->]]]; reflexivity.
      * destruct (convertToText_trace host p out)
          as [-> | [-> | (_ & o & data & ->)]]; [reflexivity | |];
          destruct (intoarray_trace host p) as [-> | [-> | [pdf ->]]]; reflexivity.
  - destruct (extractPages_trace_cases host p out pageNumbers)
      as [-> | [-> | [[bytes ->] | [(bytes & src & numbers & tail & -> & Htail)
                                   | (bytes & src & done & n & ->)]]]];
      try reflexivity.
    + rewrite !occurrences_app, !loopEvents_without by reflexivity.
      destruct Htail as [-> | (o & data & ->)]; reflexivity.
    + rewrite !occurrences_app, !loopEvents_without by reflexivity.
      reflexivity.
Qed.

Lemma delegates_are_kept_apart_witness :
  occurrences isPdfLib (trace (searchText Sample.host "/docs/report.pdf" "Foo"
                                 OptionsUndefined)) = 0
  /\ occurrences isParse (trace (extractPages Sample.host "/docs/report.pdf"
                                   (Some "/out/x.pdf") (Some (integers [2; 5; 2]%Z)))) = 0.
Proof.
  destruct (delegates_are_kept_apart Sample.host "/docs/report.pdf" "Foo"
              OptionsUndefined (Some "/out/x.pdf") (Some (integers [2; 5; 2]%Z)))
    as [Htext Hextract].
  split; [|exact Hextract].
  apply (Htext isPdfLib). now left.
Defined.

(** X22.  On a path that passes validation the current [intoarray] is the
    earlier one behind an existence check and a [catch]: it makes the same
    outside calls after the check, returns the same lines, and where the
    earlier one throws a raw error it throws that error's message after
    ["Failed to parse PDF: "] under the tag [ParseError].  On a path that
    fails validation it stops at the check, where the earlier one goes on to
    read the file. *)
Theorem intoarray_wraps_earlier_version
    {Page} (host : Host Page) (p : string) :
  (validPath host p = true ->
     trace (intoarray host p) = FsExistsSync p :: trace (intoarray_v0 host p)
     /\ completion (intoarray host p)
        = wrapped "Failed to parse PDF: " "ParseError"
            (completion (intoarray_v0 host p)))
  /\ (validPath host p = false ->
      trace (intoarray host p) = [FsExistsSync p]
      /\ exists rest, trace (intoarray_v0 host p) = FsReadFileSync p :: rest).
Proof.
  split; intros Hv; rewrite intoarray_run, Hv; unfold intoarray_v0; unfold_run.
  - destruct (readFileSync host p) as [pdf|m]; simpl; [|split; reflexivity].
    destruct (pdfparse host pdf) as [data|m]; simpl; split; reflexivity.
  - split; [reflexivity|].
    destruct (readFileSync host p) as [pdf|m]; simpl; [|now eexists].
    destruct (pdfparse host pdf) as [data|m]; simpl; now eexists.
Qed.

Lemma intoarray_wraps_earlier_version_witness :
  validPath Sample.host "/docs/broken.pdf" = true
  /\ completion (intoarray_v0 Sample.host "/docs/broken.pdf")
     = Throw (Error "Invalid PDF structure")
  /\ completion (intoarray Sample.host "/docs/broken.pdf")
     = wrapped "Failed to parse PDF: " "ParseError"
         (completion (intoarray_v0 Sample.host "/docs/broken.pdf")).
Proof.
  split; [reflexivity|]. split; [reflexivity|].
  apply (proj1 (intoarray_wraps_earlier_version Sample.host "/docs/broken.pdf")).
  reflexivity.
Defined.

(** ** Page numbers that are not integers *)

(** What straying means: a finite number above 0 and at most the page count
    that is not an integer. *)
Lemma strays_fraction {Page} (src : list Page) (q : Q) :
  (0 < q)%Q ->
  (q <= inject_Z (pageCount src))%Q ->
  JS.integerValue (Finite q) = None ->
  strays src (Finite q) = true.
Proof.
  unfold Qlt, Qle, strays, passesGuard, JS.gt, JS.le, JS.lt, integer, Qle_bool.
  cbn [inject_Z Qnum Qden]. intros Hpos Hle ->.
  rewrite negb_involutive, andb_true_r. apply andb_true_iff. split.
  - apply negb_true_iff, Z.leb_gt. lia.
  - apply Z.leb_le. lia.
Qed.

Lemma strays_only_fractions {Page} (src : list Page) :
  strays src NaN = false /\ strays src Infinity = false
  /\ strays src NegInfinity = false
  /\ forall z, strays src (integer z) = false.
Proof. repeat split. apply strays_integer. Qed.

(** X23.  A page number that is not an integer but lies above 0 and at most
    at the page count is not skipped: it passes the guard of line 120,
    [copyPages] throws on it, and [extractPages] fails with
    [ExtractPagesError] without calling [save] and without writing anything,
    whatever numbers come after it. *)
Theorem fraction_in_range_stops_extraction
    {Page} (host : Host Page) (p out : string) (done : list JsNumber) (q : Q)
    (rest : list JsNumber) (bytes : Buffer) (src : list Page) :
  validPath host p = true ->
  out <> "" ->
  readFileSync host p = Ok bytes ->
  load host bytes = Ok src ->
  forallb (fun k => negb (strays src k)) done = true ->
  (0 < q)%Q ->
  (q <= inject_Z (pageCount src))%Q ->
  JS.integerValue (Finite q) = None ->
  thrownType (extractPages host p (Some out) (Some (done ++ Finite q :: rest)))
  = Some "ExtractPagesError"
  /\ savedDocuments
       (trace (extractPages host p (Some out) (Some (done ++ Finite q :: rest))))
     = []
  /\ occurrences isWrite
       (trace (extractPages host p (Some out) (Some (done ++ Finite q :: rest))))
     = 0
  /\ occurrences isWarn
       (trace (extractPages host p (Some out) (Some (done ++ Finite q :: rest))))
     = length (filter (fun n => negb (inRange src n)) done).
Proof.
  intros Hv Hout Hread Hload Hdone Hpos Hle Hfrac.
  pose proof (strays_fraction src q Hpos Hle Hfrac) as Hn.
  destruct (copyPages_strays src (Finite q) Hn) as [m Hcopy].
  rewrite (extractPages_stray host p out done (Finite q) rest bytes src m
             Hv Hout Hread Hload Hdone Hn Hcopy).
  split; [reflexivity|]. unfold trace. cbn [fst].
  split; [|split].
  - rewrite !savedDocuments_app, loopEvents_no_save. reflexivity.
  - rewrite !occurrences_app, loopEvents_without by reflexivity. reflexivity.
  - rewrite !occurrences_app, loopEvents_warnings.
    generalize (length (filter (fun n => negb (inRange src n)) done)).
    intros skipped. unfold occurrences. simpl. lia.
Qed.

Lemma fraction_in_range_stops_extraction_witness :
  validPath Sample.host "/docs/report.pdf" = true
  /\ (0 < 5 # 2)%Q
  /\ (5 # 2 <= inject_Z (pageCount Sample.reportBytes))%Q
  /\ thrownType (extractPages Sample.host "/docs/report.pdf" (Some "/out/x.pdf")
                   (Some ([integer 1] ++ Finite (5 # 2) :: [integer 3])))
     = Some "ExtractPagesError".
Proof.
  split; [reflexivity|].
  assert (Hpos : (0 < 5 # 2)%Q) by reflexivity.
  assert (Hle : (5 # 2 <= inject_Z (pageCount Sample.reportBytes))%Q)
    by (unfold Qle; simpl; lia).
  split; [exact Hpos|]. split; [exact Hle|].
  apply (fraction_in_range_stops_extraction Sample.host "/docs/report.pdf"
           "/out/x.pdf" [integer 1] (5 # 2) [integer 3]
           Sample.reportBytes Sample.reportBytes
           eq_refl ltac:(discriminate) eq_refl eq_refl eq_refl Hpos Hle eq_refl).
Defined.
